(** * The step and hook registry of the Cucumber preprocessor

    A shallow embedding of [src/lib/registry.ts]: registration of step
    definitions, parameter types and tagged hooks, resolution of a literal
    step line to exactly one definition, and invocation of steps and hooks.

    The registry is a JavaScript object mutated in place; here every method
    takes the registry and returns the new one.  A [throw] is the left
    injection of a sum.  Calls into user code (step and hook
    implementations) are recorded in a trace, and what such a call does is
    given by the environment.  The libraries the file imports
    (cucumber-expressions, tag-expressions, stacktrace-parser) are
    parameters of the development.

    A compiled expression has a state.  A [RegularExpression] matches with
    the [RegExp] object it was given, and under the flags [g] and [y] that
    object keeps its [lastIndex] from one call of [match] to the next; a
    templated expression compiles a regular expression of its own, without
    flags, and has no state.  Each [RegularExpression] is taken to own its
    [RegExp] object, as a regular-expression literal gives it one. *)

From Stdlib Require Import List String Ascii Bool NArith ZArith Lia DecimalString.
From Stdlib Require Import Permutation.
Import ListNotations.

Local Open Scope list_scope.
Local Open Scope string_scope.

(** ** JavaScript values that cross the registry's interface *)

(** A function object, by identity. *)
Definition Callable := string.

(** A regular-expression literal [/source/flags]. *)
Record RegExp := mkRegExp { re_source : string; re_flags : string }.

#[warnings="-register-all"]
Inductive value : Type :=
| VUndefined
| VNull
| VBool (b : bool)
| VNumber (z : Z)
| VString (s : string)
| VFunction (f : Callable)
| VRegExp (r : RegExp)
| VObject (props : list (string * value))
| VDataTable (rows : list (list string)).

(** The results of the [typeof] operator. *)
Inductive jstype := TUndefined | TObject | TBoolean | TNumber | TString | TFunction.

Definition typeof (v : value) : jstype :=
  match v with
  | VUndefined => TUndefined
  | VNull => TObject
  | VBool _ => TBoolean
  | VNumber _ => TNumber
  | VString _ => TString
  | VFunction _ => TFunction
  | VRegExp _ | VObject _ | VDataTable _ => TObject
  end.

Definition jstype_eqb (a b : jstype) : bool :=
  match a, b with
  | TUndefined, TUndefined | TObject, TObject | TBoolean, TBoolean
  | TNumber, TNumber | TString, TString | TFunction, TFunction => true
  | _, _ => false
  end.

(** Conversion to boolean, as done by [if (v)], [v ? a : b] and [v || d]. *)
Definition truthy (v : value) : bool :=
  match v with
  | VUndefined | VNull => false
  | VBool b => b
  | VNumber z => negb (z =? 0)%Z
  | VString s => negb (s =? "")
  | VFunction _ | VRegExp _ | VObject _ | VDataTable _ => true
  end.

(** [description instanceof RegExp] *)
Definition instanceof_RegExp (v : value) : option RegExp :=
  match v with VRegExp r => Some r | _ => None end.

(** ** Exceptions and the result of a fallible call *)

Inductive exn : Type :=
| Error (message : string)       (* [new Error(message)], as the registry throws *)
| TypeError (message : string)   (* raised by the engine *)
| Foreign (what : string).       (* raised by a library or by user code *)

Definition result (A : Type) : Type := (exn + A)%type.

Definition ret {A} (a : A) : result A := inr a.
Definition throw {A} (e : exn) : result A := inl e.

Definition bind {A B} (m : result A) (k : A -> result B) : result B :=
  match m with
  | inl e => inl e
  | inr a => k a
  end.

Notation "x <- m ;; k" := (bind m (fun x => k))
  (at level 61, m at next level, right associativity).

(** Evaluate [f] on the elements from left to right, stopping at the first
    exception: [xs.map(f)] for a callback that may throw. *)
Fixpoint mapM {A B} (f : A -> result B) (xs : list A) : result (list B) :=
  match xs with
  | [] => ret []
  | x :: xs' => y <- f x ;; ys <- mapM f xs' ;; ret (y :: ys)
  end.

(** Property read [o.key].  Reading a property of [null] or [undefined]
    raises; on the other values only own data properties are modelled, an
    object listing each of its properties once. *)
Fixpoint assoc (key : string) (props : list (string * value)) : value :=
  match props with
  | [] => VUndefined
  | (k, v) :: rest => if k =? key then v else assoc key rest
  end.

Definition get_prop (o : value) (key : string) : result value :=
  match o with
  | VNull =>
      throw (TypeError ("Cannot read properties of null (reading '" ++ key ++ "')"))
  | VUndefined =>
      throw (TypeError ("Cannot read properties of undefined (reading '" ++ key ++ "')"))
  | VObject props => ret (assoc key props)
  | _ => ret VUndefined
  end.

(** ** Strings *)

Definition nl : string := String (ascii_of_nat 10) EmptyString.

(** [s.includes(sub)] *)
Fixpoint includes (s sub : string) : bool :=
  if String.prefix sub s then true
  else match s with
       | EmptyString => false
       | String _ s' => includes s' sub
       end.

(** A number in a template literal; line numbers are naturals. *)
Definition number_to_string (n : N) : string :=
  NilEmpty.string_of_uint (N.to_uint n).

(** A regular expression in a template literal: [RegExp.prototype.toString]. *)
Definition regexp_to_string (r : RegExp) : string :=
  "/" ++ re_source r ++ "/" ++ re_flags r.

(** ** Stack frames, as stacktrace-parser returns them *)

Record StackFrame := mkStackFrame {
  frame_file : option string;
  frame_methodName : string;
  frame_lineNumber : option N;
  frame_column : option N
}.

(** ** The collaborators outside [registry.ts] *)

Record External : Type := mkExternal {
  (* @cucumber/cucumber-expressions *)
  ParameterTypeRegistry : Type;
  new_ParameterTypeRegistry : ParameterTypeRegistry;
  ParameterType : Type;
  (* [new ParameterType(name, regexps, type, transform, useForSnippets,
     preferForRegexpMatch)] *)
  new_ParameterType :
    value -> value -> value -> value -> bool -> bool -> result ParameterType;
  registry_defineParameterType :
    ParameterTypeRegistry -> ParameterType -> result ParameterTypeRegistry;
  (* the compiled form of an expression and the captures of a match *)
  Matcher : Type;
  Argument : Type;
  compile_CucumberExpression : string -> ParameterTypeRegistry -> result Matcher;
  compile_RegularExpression : RegExp -> ParameterTypeRegistry -> result Matcher;
  (* [expression.match(text)], in the state the matcher is in: [null], or
     one [Argument] per capture *)
  matcher_match : Matcher -> string -> option (list Argument);
  (* the state in which that call leaves the matcher of a
     [RegularExpression] (the [lastIndex] of its [RegExp]) *)
  matcher_after_match : Matcher -> string -> Matcher;
  (* [argument.getValue(thisObj)]: the capture fed through the transform of
     its parameter type, with [thisObj] as receiver *)
  getValue : Argument -> value -> result value;
  (* @cucumber/tag-expressions *)
  TagNode : Type;
  parse : value -> result TagNode;
  tag_evaluate : TagNode -> list string -> bool;
  (* stacktrace-parser *)
  stackTraceParser_parse : string -> list StackFrame;
  (* user code: [f.apply(this, args)] returns, or throws the given exception *)
  call_outcome : Callable -> value -> list value -> option exn
}.

(** ** The registry *)

Section Registry.

Variable E : External.

(** [interface IStepDefinition] *)
Inductive Expression : Type :=
| CucumberExpression (source : string) (compiled : Matcher E)
| RegularExpression (regexp : RegExp) (compiled : Matcher E).

Record IStepDefinition := mkStep {
  file : string;
  line : N;
  expression : Expression;
  implementation : Callable
}.

(** [interface IHook]: the node is the constant-true evaluator built by
    [parseHookArguments] or a node of the tag-expression parser. *)
Inductive HookNode : Type :=
| noopNode
| parsedNode (n : TagNode E).

Record IHook := mkHook {
  node : HookNode;
  hook_implementation : Callable
}.

Definition node_evaluate (n : HookNode) (tags : list string) : bool :=
  match n with
  | noopNode => true
  | parsedNode t => tag_evaluate E t tags
  end.

(** The private fields of [class Registry]. *)
Record Registry := mkRegistry {
  parameterTypeRegistry : ParameterTypeRegistry E;
  stepDefinitions : list IStepDefinition;
  beforeHooks : list IHook;
  afterHooks : list IHook
}.

(** The state the constructor leaves. *)
Definition constructor : Registry :=
  {| parameterTypeRegistry := new_ParameterTypeRegistry E;
     stepDefinitions := [];
     beforeHooks := [];
     afterHooks := [] |}.

(** [new CucumberExpression(source, registry)] and
    [new RegularExpression(regexp, registry)] *)
Definition new_CucumberExpression (source : string)
    (reg : ParameterTypeRegistry E) : result Expression :=
  m <- compile_CucumberExpression E source reg ;;
  ret (CucumberExpression source m).

Definition new_RegularExpression (regexp : RegExp)
    (reg : ParameterTypeRegistry E) : result Expression :=
  m <- compile_RegularExpression E regexp reg ;;
  ret (RegularExpression regexp m).

(** [expression.match(text)] *)
Definition expression_match (e : Expression) (text : string)
    : option (list (Argument E)) :=
  match e with
  | CucumberExpression _ m => matcher_match E m text
  | RegularExpression _ m => matcher_match E m text
  end.

(** The expression as a call of [match] leaves it: a templated expression
    unchanged, a [RegularExpression] with the state of its [RegExp] moved
    on. *)
Definition expression_after_match (e : Expression) (text : string)
    : Expression :=
  match e with
  | CucumberExpression source m => CucumberExpression source m
  | RegularExpression regexp m =>
      RegularExpression regexp (matcher_after_match E m text)
  end.

(** A step definition after a call of [match] on its expression. *)
Definition after_match (text : string) (d : IStepDefinition) : IStepDefinition :=
  {| file := file d;
     line := line d;
     expression := expression_after_match (expression d) text;
     implementation := implementation d |}.

(** *** Hook arguments *)

Definition parseHookArguments (optionsOrFn maybeFn : value) : result IHook :=
  match optionsOrFn with
  | VFunction f =>
      if truthy maybeFn then
        throw (Error "Unexpected argument for Before hook")
      else
        ret {| hook_implementation := f; node := noopNode |}
  | _ =>
      if jstype_eqb (typeof optionsOrFn) TObject then
        match maybeFn with
        | VFunction g =>
            tags <- get_prop optionsOrFn "tags" ;;
            n <- (if truthy tags
                  then t <- parse E tags ;; ret (parsedNode t)
                  else ret noopNode) ;;
            ret {| node := n; hook_implementation := g |}
        | _ => throw (Error "Unexpected argument for Before hook")
        end
      else
        throw (Error "Unexpected argument for Before hook")
  end.

(** *** Source location of a registration *)

Definition isFileNameInpreprocessor (filepath : string) : bool :=
  includes filepath "@badeball/cypress-cucumber-preprocessor".

(** The callback of [stackframes.find]: [frame.file &&
    !isFileNameInpreprocessor(frame.file)], read as a boolean. *)
Definition is_user_frame (frame : StackFrame) : bool :=
  match frame_file frame with
  | None => false
  | Some f => negb (f =? "") && negb (isFileNameInpreprocessor f)
  end.

(** [unparsedStack] is [new Error().stack] at the call: absent on engines
    that do not provide it. *)
Definition getDefinitionLineAndFile (unparsedStack : option string)
    : N * string :=
  let fallback := (0%N, "unknown") in
  match unparsedStack with
  | None => fallback
  | Some stack =>
      if stack =? "" then fallback
      else
        match find is_user_frame (stackTraceParser_parse E stack) with
        | Some stackframe =>
            let line := match frame_lineNumber stackframe with
                        | Some n => if (n =? 0)%N then 0%N else n
                        | None => 0%N
                        end in
            let file := match frame_file stackframe with
                        | Some f => if f =? "" then "unkown" else f
                        | None => "unkown"
                        end in
            (line, file)
        | None => fallback
        end
  end.

(** *** Registration *)

Definition push_step (d : IStepDefinition) (r : Registry) : Registry :=
  {| parameterTypeRegistry := parameterTypeRegistry r;
     stepDefinitions := (stepDefinitions r ++ [d])%list;
     beforeHooks := beforeHooks r;
     afterHooks := afterHooks r |}.

(** The implementation is not inspected at registration; it is typed as a
    function, and the model keeps that type. *)
Definition defineStep (unparsedStack : option string) (description : value)
    (implementation : Callable) (this : Registry) : result Registry :=
  let '(line, file) := getDefinitionLineAndFile unparsedStack in
  match description with
  | VString s =>
      e <- new_CucumberExpression s (parameterTypeRegistry this) ;;
      ret (push_step {| line := line; file := file; expression := e;
                        implementation := implementation |} this)
  | _ =>
      match instanceof_RegExp description with
      | Some r =>
          e <- new_RegularExpression r (parameterTypeRegistry this) ;;
          ret (push_step {| line := line; file := file; expression := e;
                            implementation := implementation |} this)
      | None => throw (Error "Unexpected argument for step definition")
      end
  end.

(** [interface IParameterTypeDefinition]; a property left out reads as
    [undefined]. *)
Record IParameterTypeDefinition := mkParameterTypeDefinition {
  name : value;
  regexp : value;
  transformer : value;
  useForSnippets : value;
  preferForRegexpMatch : value
}.

Definition set_parameterTypeRegistry (reg : ParameterTypeRegistry E)
    (r : Registry) : Registry :=
  {| parameterTypeRegistry := reg;
     stepDefinitions := stepDefinitions r;
     beforeHooks := beforeHooks r;
     afterHooks := afterHooks r |}.

Definition defineParameterType (options : IParameterTypeDefinition)
    (this : Registry) : result Registry :=
  let useForSnippets :=
    match useForSnippets options with VBool b => b | _ => true end in
  let preferForRegexpMatch :=
    match preferForRegexpMatch options with VBool b => b | _ => false end in
  pt <- new_ParameterType E (name options) (regexp options) VNull
          (transformer options) useForSnippets preferForRegexpMatch ;;
  reg <- registry_defineParameterType E (parameterTypeRegistry this) pt ;;
  ret (set_parameterTypeRegistry reg this).

Definition push_beforeHook (h : IHook) (r : Registry) : Registry :=
  {| parameterTypeRegistry := parameterTypeRegistry r;
     stepDefinitions := stepDefinitions r;
     beforeHooks := (beforeHooks r ++ [h])%list;
     afterHooks := afterHooks r |}.

Definition push_afterHook (h : IHook) (r : Registry) : Registry :=
  {| parameterTypeRegistry := parameterTypeRegistry r;
     stepDefinitions := stepDefinitions r;
     beforeHooks := beforeHooks r;
     afterHooks := (afterHooks r ++ [h])%list |}.

Definition defineBefore (optionsOrFn maybeFn : value) (this : Registry)
    : result Registry :=
  h <- parseHookArguments optionsOrFn maybeFn ;;
  ret (push_beforeHook h this).

Definition defineAfter (optionsOrFn maybeFn : value) (this : Registry)
    : result Registry :=
  h <- parseHookArguments optionsOrFn maybeFn ;;
  ret (push_afterHook h this).

(** *** Calls into user code *)

(** One call [f.apply(this, args)] made by the registry. *)
Inductive Call : Type := mkCall (f : Callable) (this : value) (args : list value).

(** A computation that calls user code: the calls it made, in order, and
    how it ended. *)
Definition run (A : Type) : Type := (list Call * result A)%type.

Definition run_ret {A} (a : A) : run A := ([], ret a).

Definition lift {A} (m : result A) : run A := ([], m).

Definition run_bind {A B} (m : run A) (k : A -> run B) : run B :=
  match m with
  | (calls, inl e) => (calls, inl e)
  | (calls, inr a) => let '(calls', r) := k a in ((calls ++ calls')%list, r)
  end.

Notation "x <~ m ;; k" := (run_bind m (fun x => k))
  (at level 61, m at next level, right associativity).

(** [f.apply(this, args)] and [f.call(this)]: the value returned is dropped
    by every caller, an exception propagates. *)
Definition invoke (f : Callable) (this : value) (args : list value) : run unit :=
  ([mkCall f this args],
   match call_outcome E f this args with
   | Some e => throw e
   | None => ret tt
   end).

(** [xs.forEach(callback)] *)
Fixpoint forEach {A} (xs : list A) (callback : A -> run unit) : run unit :=
  match xs with
  | [] => run_ret tt
  | x :: xs' => _ <~ callback x ;; forEach xs' callback
  end.

(** *** Resolution *)

(** The callback of the [filter]: the result of [match] read as a boolean
    ([null] is false, an array is true, also when it is empty). *)
Definition matches (text : string) (stepDefinition : IStepDefinition) : bool :=
  match expression_match (expression stepDefinition) text with
  | Some _ => true
  | None => false
  end.

(** The callback of the [map] that renders the colliding definitions. *)
Definition describe (stepDefinition : IStepDefinition) : string :=
  match expression stepDefinition with
  | RegularExpression regexp _ =>
      " " ++ regexp_to_string regexp ++ " - " ++ file stepDefinition ++ ":"
          ++ number_to_string (line stepDefinition)
  | CucumberExpression source _ =>
      " " ++ source ++ " - " ++ file stepDefinition ++ ":"
          ++ number_to_string (line stepDefinition)
  end.

(** The three branches test [length === 0], [length > 1] and otherwise
    return the element at index 0.  The [filter] calls [match] once on
    every definition of the table, in the state each is in; the definition
    returned is the object so matched, hence in the state that call left
    it in. *)
Definition resolveStepDefintion (text : string) (this : Registry)
    : result IStepDefinition :=
  let matchingStepDefinitions := filter (matches text) (stepDefinitions this) in
  match matchingStepDefinitions with
  | [] => throw (Error ("Step implementation missing for: " ++ text))
  | [stepDefinition] => ret (after_match text stepDefinition)
  | _ :: _ :: _ =>
      throw (Error ("Multiple matching step definitions for: " ++ text ++ nl
                    ++ String.concat nl (map describe matchingStepDefinitions)))
  end.

(** The registry as a resolution leaves it, whatever it returned: every
    definition of the table has been matched once. *)
Definition after_resolveStepDefintion (text : string) (this : Registry)
    : Registry :=
  {| parameterTypeRegistry := parameterTypeRegistry this;
     stepDefinitions := map (after_match text) (stepDefinitions this);
     beforeHooks := beforeHooks this;
     afterHooks := afterHooks this |}.

(** *** Invocation *)

(** The second [match] is called on the definition the resolution
    returned, that is, after the first. *)
Definition runStepDefininition (world : value) (text : string)
    (argument : value) (this : Registry) : run unit :=
  stepDefinition <~ lift (resolveStepDefintion text this) ;;
  captures <~ lift (match expression_match (expression stepDefinition) text with
                    | Some captures => ret captures
                    | None => throw (TypeError
                        "Cannot read properties of null (reading 'map')")
                    end) ;;
  args <~ lift (mapM (fun m => getValue E m world) captures) ;;
  let args := if truthy argument then (args ++ [argument])%list else args in
  invoke (implementation stepDefinition) world args.

(** The registry as a run of a step leaves it: as the resolution leaves
    it and, when the resolution returned a definition, with that
    definition matched a second time.  What the transforms and the
    implementation do to the registry is theirs. *)
Definition after_runStepDefininition (text : string) (this : Registry)
    : Registry :=
  match resolveStepDefintion text this with
  | inl _ => after_resolveStepDefintion text this
  | inr _ =>
      {| parameterTypeRegistry := parameterTypeRegistry this;
         stepDefinitions :=
           map (fun d => if matches text d
                         then after_match text (after_match text d)
                         else after_match text d)
               (stepDefinitions this);
         beforeHooks := beforeHooks this;
         afterHooks := afterHooks this |}
  end.

Definition runBeforeHooks (world : value) (tags : list string)
    (this : Registry) : run unit :=
  forEach (filter (fun beforeHook => node_evaluate (node beforeHook) tags)
                  (beforeHooks this))
          (fun hook => invoke (hook_implementation hook) world []).

Definition runAfterHooks (world : value) (tags : list string)
    (this : Registry) : run unit :=
  forEach (filter (fun beforeHook => node_evaluate (node beforeHook) tags)
                  (afterHooks this))
          (fun hook => invoke (hook_implementation hook) world []).

(** *** The public methods *)

(** [this.methods], each entry a method bound to the registry. *)
Record Methods := mkMethods {
  Given : option string -> value -> Callable -> Registry -> result Registry;
  When : option string -> value -> Callable -> Registry -> result Registry;
  Then : option string -> value -> Callable -> Registry -> result Registry;
  Step : value -> string -> value -> Registry -> run unit;
  DefineParameterType : IParameterTypeDefinition -> Registry -> result Registry;
  Before : value -> value -> Registry -> result Registry;
  After : value -> value -> Registry -> result Registry
}.

Definition methods : Methods :=
  {| Given := defineStep;
     When := defineStep;
     Then := defineStep;
     Step := runStepDefininition;
     DefineParameterType := defineParameterType;
     Before := defineBefore;
     After := defineAfter |}.

End Registry.

Arguments CucumberExpression {E} source compiled.
Arguments RegularExpression {E} regexp compiled.
Arguments mkStep {E} file line expression implementation.
Arguments file {E} i.
Arguments line {E} i.
Arguments expression {E} i.
Arguments implementation {E} i.
Arguments noopNode {E}.
Arguments parsedNode {E} n.
Arguments mkHook {E} node hook_implementation.
Arguments node {E} i.
Arguments hook_implementation {E} i.
Arguments mkRegistry {E} parameterTypeRegistry stepDefinitions beforeHooks afterHooks.
Arguments parameterTypeRegistry {E} r.
Arguments stepDefinitions {E} r.
Arguments beforeHooks {E} r.
Arguments afterHooks {E} r.

(** ** The failures of the registry

    The registry throws plain [Error]s; these are the names its
    documentation gives them. *)

Definition InvalidHookArgumentsError : exn :=
  Error "Unexpected argument for Before hook".

Definition InvalidStepPatternError : exn :=
  Error "Unexpected argument for step definition".

Definition UndefinedStepError (text : string) : exn :=
  Error ("Step implementation missing for: " ++ text).

Definition AmbiguousStepError {E} (text : string)
    (colliding : list (IStepDefinition E)) : exn :=
  Error ("Multiple matching step definitions for: " ++ text ++ nl
         ++ String.concat nl (map (describe E) colliding)).

(** The three outcomes of a resolution, by the definitions that match. *)
Inductive resolution {E} (text : string) (r : Registry E)
    : result (IStepDefinition E) -> Prop :=
| resolution_undefined :
    filter (matches E text) (stepDefinitions r) = [] ->
    resolution text r (inl (UndefinedStepError text))
| resolution_unique d :
    filter (matches E text) (stepDefinitions r) = [d] ->
    resolution text r (inr (after_match E text d))
| resolution_ambiguous d1 d2 rest :
    filter (matches E text) (stepDefinitions r) = d1 :: d2 :: rest ->
    resolution text r (inl (AmbiguousStepError text (d1 :: d2 :: rest))).

(** What a colliding definition shows of its pattern: the source of a
    templated expression, the regular expression otherwise. *)
Definition pattern_text {E} (d : IStepDefinition E) : string :=
  match expression d with
  | CucumberExpression source _ => source
  | RegularExpression regexp _ => regexp_to_string regexp
  end.

(** A value of [typeof] "object" other than [null]. *)
Definition is_object (v : value) : bool :=
  match v with
  | VRegExp _ | VObject _ | VDataTable _ => true
  | _ => false
  end.

(** A first argument of a hook registration that carries no tags: the
    callable itself, or options without a [tags] property. *)
Definition no_tags (optionsOrFn : value) : Prop :=
  match optionsOrFn with
  | VFunction _ => True
  | VObject props => assoc "tags" props = VUndefined
  | _ => False
  end.

(** The call a run makes for a hook, whether that call returns, and the
    hooks of a table that a tag set selects. *)
Definition hook_call {E} (world : value) (h : IHook E) : Call :=
  mkCall (hook_implementation h) world [].

Definition hook_returns {E} (world : value) (h : IHook E) : Prop :=
  call_outcome E (hook_implementation h) world [] = None.

Definition selected {E} (tags : list string) (table : list (IHook E))
    : list (IHook E) :=
  filter (fun h => node_evaluate E (node h) tags) table.

(** The frames [getDefinitionLineAndFile] searches: those of the parsed
    stack, none when the stack is absent or empty. *)
Definition searched_frames (E : External) (unparsedStack : option string)
    : list StackFrame :=
  match unparsedStack with
  | Some stack => if stack =? "" then [] else stackTraceParser_parse E stack
  | None => []
  end.

(** A frame that names a file outside the preprocessor's own files. *)
Definition outside_preprocessor (frame : StackFrame) : Prop :=
  exists f, frame_file frame = Some f /\ f <> "" /\
            includes f "@badeball/cypress-cucumber-preprocessor" = false.

(** ** A small instance of the collaborators

    Enough of the three libraries to run the registry on closed examples:
    templated patterns with at most one [{int}] placeholder, regular
    expressions without metacharacters (matched as substrings, from
    [lastIndex] on under the flag [g]), the tag expressions [@x] and
    [not @x], and three named stacks. *)

Module Sample.

Definition drop (n : nat) (s : string) : string :=
  substring n (String.length s - n) s.

(** The first occurrence of [sub] in [s]: what precedes and what follows. *)
Fixpoint split_at (sub s : string) : option (string * string) :=
  if String.prefix sub s then Some ("", drop (String.length sub) s)
  else match s with
       | EmptyString => None
       | String c s' =>
           match split_at sub s' with
           | Some (a, b) => Some (String c a, b)
           | None => None
           end
       end.

Definition is_digit (c : ascii) : bool :=
  let n := nat_of_ascii c in (48 <=? n)%nat && (n <=? 57)%nat.

Fixpoint span_digits (s : string) : string * string :=
  match s with
  | EmptyString => ("", "")
  | String c s' =>
      if is_digit c then let '(d, r) := span_digits s' in (String c d, r)
      else ("", s)
  end.

Inductive matcher : Type :=
| Literal (s : string)
| IntSlot (before after : string)
| Substring (s : string)
| Global (s : string) (lastIndex : nat).

Definition compile_template (source : string) : matcher :=
  match split_at "{int}" source with
  | Some (a, b) => IntSlot a b
  | None => Literal source
  end.

(** A capture: the name of its parameter type and the text captured. *)
Definition capture : Type := (string * string)%type.

Definition run_matcher (m : matcher) (text : string) : option (list capture) :=
  match m with
  | Literal s => if s =? text then Some [] else None
  | IntSlot a b =>
      if String.prefix a text then
        let '(d, r) := span_digits (drop (String.length a) text) in
        if negb (d =? "") && (r =? b) then Some [("int", d)] else None
      else None
  | Substring s => if includes text s then Some [] else None
  | Global s lastIndex =>
      match String.index lastIndex s text with
      | Some _ => Some []
      | None => None
      end
  end.

(** A regular expression with the flag [g] starts at [lastIndex], which a
    match moves to the end of the occurrence found and a failure resets. *)
Definition matcher_after (m : matcher) (text : string) : matcher :=
  match m with
  | Global s lastIndex =>
      match String.index lastIndex s text with
      | Some at_ => Global s (at_ + String.length s)
      | None => Global s 0
      end
  | _ => m
  end.

Definition compile_regexp (regexp : RegExp) : matcher :=
  if includes (re_flags regexp) "g" then Global (re_source regexp) 0
  else Substring (re_source regexp).

Definition transform (c : capture) (this : value) : result value :=
  if fst c =? "int" then
    match NilEmpty.uint_of_string (snd c) with
    | Some u => ret (VNumber (Z.of_uint u))
    | None => throw (Foreign "not a number")
    end
  else ret (VString (snd c)).

Inductive tag : Type :=
| Tag (t : string)
| Not (e : tag).

Definition parse_tags (v : value) : result tag :=
  match v with
  | VString s =>
      if String.prefix "not " s then ret (Not (Tag (drop 4 s))) else ret (Tag s)
  | _ => throw (Foreign "tag expression is not a string")
  end.

Fixpoint evaluate (e : tag) (tags : list string) : bool :=
  match e with
  | Tag t => existsb (String.eqb t) tags
  | Not e' => negb (evaluate e' tags)
  end.

Definition parameter_type : Type := (value * value * value * value * bool * bool)%type.

Definition frames (stack : string) : list StackFrame :=
  if stack =? "internal only" then
    [ mkStackFrame (Some "node_modules/@badeball/cypress-cucumber-preprocessor/lib/registry.js")
        "defineStep" (Some 151%N) (Some 5%N);
      mkStackFrame None "<unknown>" None None ]
  else if stack =? "user frame without line" then
    [ mkStackFrame (Some "node_modules/@badeball/cypress-cucumber-preprocessor/lib/registry.js")
        "defineStep" (Some 151%N) (Some 5%N);
      mkStackFrame (Some "cypress/support/step_definitions/steps.js")
        "<unknown>" None None ]
  else if stack =? "user frame" then
    [ mkStackFrame (Some "node_modules/@badeball/cypress-cucumber-preprocessor/lib/registry.js")
        "defineStep" (Some 151%N) (Some 5%N);
      mkStackFrame (Some "cypress/support/step_definitions/steps.js")
        "<unknown>" (Some 3%N) (Some 1%N) ]
  else [].

(** The function named [boom] throws; every other function returns. *)
Definition outcome (f : Callable) (this : value) (args : list value) : option exn :=
  if f =? "boom" then Some (Foreign "boom") else None.

Definition ext : External :=
  {| ParameterTypeRegistry := list parameter_type;
     new_ParameterTypeRegistry := [];
     ParameterType := parameter_type;
     new_ParameterType := fun n r t f u p => ret (n, r, t, f, u, p);
     registry_defineParameterType := fun reg pt => ret (reg ++ [pt])%list;
     Matcher := matcher;
     Argument := capture;
     compile_CucumberExpression := fun source _ => ret (compile_template source);
     compile_RegularExpression := fun regexp _ => ret (compile_regexp regexp);
     matcher_match := run_matcher;
     matcher_after_match := matcher_after;
     getValue := transform;
     TagNode := tag;
     parse := parse_tags;
     tag_evaluate := evaluate;
     stackTraceParser_parse := frames;
     call_outcome := outcome |}.

(** A registry with three steps, two of which collide on the line
    [a step], and hooks in both tables. *)
Definition populated : result (Registry ext) :=
  r <- defineStep ext (Some "user frame") (VString "there are {int} items")
         "count" (constructor ext) ;;
  r <- defineStep ext (Some "user frame") (VString "a step") "first" r ;;
  r <- defineStep ext (Some "user frame without line")
         (VRegExp (mkRegExp "a st" "i")) "second" r ;;
  r <- defineStep ext None (VString "a doc string step") "doc" r ;;
  r <- defineBefore ext (VFunction "h1") VUndefined r ;;
  r <- defineBefore ext (VObject [("tags", VString "@x")]) (VFunction "h2") r ;;
  r <- defineBefore ext (VObject [("tags", VString "not @x")]) (VFunction "h3") r ;;
  r <- defineBefore ext (VObject []) (VFunction "h4") r ;;
  r <- defineAfter ext (VFunction "a1") VUndefined r ;;
  ret r.

Definition registry : Registry ext :=
  match populated with
  | inr r => r
  | inl _ => constructor ext
  end.

End Sample.


(** ** The registry over time

    One operation of a program on a registry: a registration that
    succeeds, a resolution, or a run of a step.  A registration that fails
    and a run of hooks leave the registry as it is. *)

Inductive operation (E : External) (r : Registry E) : Registry E -> Prop :=
| op_defineStep unparsedStack description impl r' :
    defineStep E unparsedStack description impl r = inr r' ->
    operation E r r'
| op_defineParameterType options r' :
    defineParameterType E options r = inr r' ->
    operation E r r'
| op_defineBefore optionsOrFn maybeFn r' :
    defineBefore E optionsOrFn maybeFn r = inr r' ->
    operation E r r'
| op_defineAfter optionsOrFn maybeFn r' :
    defineAfter E optionsOrFn maybeFn r = inr r' ->
    operation E r r'
| op_resolveStepDefintion text :
    operation E r (after_resolveStepDefintion E text r)
| op_runStepDefininition text :
    operation E r (after_runStepDefininition E text r).

(** The states a registry goes through from a given one. *)
Inductive evolves (E : External) (r : Registry E) : Registry E -> Prop :=
| evolves_refl :
    evolves E r r
| evolves_then r1 r2 :
    evolves E r r1 ->
    operation E r1 r2 ->
    evolves E r r2.

(** The registries a program can hold. *)
Definition registered (E : External) (r : Registry E) : Prop :=
  evolves E (constructor E) r.

(** What the test of [getDefinitionLineAndFile] leaves as a location: the
    fallback, or a file name that is not empty and does not contain the
    package name. *)
Definition passes_filename_test {E} (d : IStepDefinition E) : Prop :=
  (file d = "unknown" /\ line d = 0%N)
  \/ (file d <> "" /\ isFileNameInpreprocessor (file d) = false).

(** ** Further registries on the small instance *)

Module Scenarios.

Definition or_else {E} (m : result (Registry E)) (r : Registry E) : Registry E :=
  match m with
  | inr r' => r'
  | inl _ => r
  end.

(** [Sample.registry] after the registration of one more pattern. *)
Definition with_new_step : Registry Sample.ext :=
  or_else (defineStep Sample.ext (Some "user frame") (VString "a new step")
             "fresh" Sample.registry)
          Sample.registry.

(** The same pattern registered twice in the empty registry. *)
Definition once : Registry Sample.ext :=
  or_else (defineStep Sample.ext (Some "user frame") (VString "a step")
             "first" (constructor Sample.ext))
          (constructor Sample.ext).

Definition twice : Registry Sample.ext :=
  or_else (defineStep Sample.ext (Some "user frame without line")
             (VString "a step") "second" once)
          once.

(** A templated pattern and a regular expression with the flag [g] that
    both match the line [a step]. *)
Definition collision : Registry Sample.ext :=
  or_else (r <- defineStep Sample.ext (Some "user frame") (VString "a step")
                  "first" (constructor Sample.ext) ;;
           defineStep Sample.ext (Some "user frame")
             (VRegExp (mkRegExp "a st" "g")) "second" r)
          (constructor Sample.ext).

(** A regular expression with the flag [g] alone. *)
Definition global_only : Registry Sample.ext :=
  or_else (defineStep Sample.ext (Some "user frame")
             (VRegExp (mkRegExp "a step" "g")) "impl" (constructor Sample.ext))
          (constructor Sample.ext).

(** The definitions of [Sample.registry] in the opposite order. *)
Definition reordered : Registry Sample.ext :=
  mkRegistry (parameterTypeRegistry Sample.registry)
    (rev (stepDefinitions Sample.registry))
    (beforeHooks Sample.registry) (afterHooks Sample.registry).

(** Three unconditional before hooks, the second of which throws. *)
Definition with_throwing_hook : Registry Sample.ext :=
  or_else (r <- defineBefore Sample.ext (VFunction "h1") VUndefined
                  (constructor Sample.ext) ;;
           r <- defineBefore Sample.ext (VFunction "boom") VUndefined r ;;
           defineBefore Sample.ext (VObject []) (VFunction "h2") r)
          (constructor Sample.ext).

(** [Sample.registry] after the registration of one more before hook. *)
Definition with_new_hook : Registry Sample.ext :=
  or_else (defineBefore Sample.ext (VObject [("tags", VString "@x")])
             (VFunction "h5") Sample.registry)
          Sample.registry.

(** The small instance with a transform that rejects the number 0. *)
Definition strict_transform (c : Sample.capture) (this : value) : result value :=
  if snd c =? "0" then throw (Foreign "zero is not allowed")
  else Sample.transform c this.

Definition strict : External :=
  {| ParameterTypeRegistry := ParameterTypeRegistry Sample.ext;
     new_ParameterTypeRegistry := new_ParameterTypeRegistry Sample.ext;
     ParameterType := ParameterType Sample.ext;
     new_ParameterType := new_ParameterType Sample.ext;
     registry_defineParameterType := registry_defineParameterType Sample.ext;
     Matcher := Sample.matcher;
     Argument := Sample.capture;
     compile_CucumberExpression := compile_CucumberExpression Sample.ext;
     compile_RegularExpression := compile_RegularExpression Sample.ext;
     matcher_match := Sample.run_matcher;
     matcher_after_match := Sample.matcher_after;
     getValue := strict_transform;
     TagNode := Sample.tag;
     parse := Sample.parse_tags;
     tag_evaluate := Sample.evaluate;
     stackTraceParser_parse := Sample.frames;
     call_outcome := Sample.outcome |}.

Definition strict_registry : Registry strict :=
  or_else (defineStep strict (Some "user frame") (VString "there are {int} items")
             "count" (constructor strict))
          (constructor strict).

End Scenarios.

(** * Properties *)

(** ** Strings and lists *)

Lemma prefix_app (a s : string) :
  String.prefix a s = true <-> exists b, s = a ++ b.
Proof.
  revert s; induction a as [|c a IH]; intros s; simpl.
  - destruct s; split; intros; eauto.
  - destruct s as [|c' s]; simpl.
    + split; [discriminate | intros [b Hb]; discriminate].
    + destruct (ascii_dec c c') as [->|Hne].
      * rewrite IH. split; intros [b Hb].
        -- exists b. now rewrite Hb.
        -- exists b. now injection Hb.
      * split; [discriminate | intros [b Hb]]. injection Hb; intros; congruence.
Qed.

Lemma includes_unfold (s sub : string) :
  includes s sub =
  if String.prefix sub s then true
  else match s with
       | EmptyString => false
       | String _ s' => includes s' sub
       end.
Proof. destruct s; reflexivity. Qed.

(** [includes] finds exactly the occurrences of a substring. *)
Lemma includes_spec (s sub : string) :
  includes s sub = true <-> exists a b, s = a ++ sub ++ b.
Proof.
  induction s as [|c s IH]; rewrite includes_unfold;
    match goal with |- context [String.prefix sub ?t] =>
      destruct (String.prefix sub t) eqn:Hp end.
  - split; [intros _|reflexivity].
    apply prefix_app in Hp as [b Hb]. exists "", b. exact Hb.
  - split; [discriminate|]. intros (a & b & Hab).
    assert (String.prefix sub "" = true) as Hp'; [|congruence].
    apply prefix_app. destruct a; [|discriminate]. exists b. exact Hab.
  - split; [intros _|reflexivity].
    apply prefix_app in Hp as [b Hb]. exists "", b. exact Hb.
  - rewrite IH. split.
    + intros (a & b & ->). now exists (String c a), b.
    + intros (a & b & Hab). destruct a as [|c' a].
      * assert (String.prefix sub (String c s) = true) as Hp'; [|congruence].
        apply prefix_app. exists b. exact Hab.
      * simpl in Hab. injection Hab as _ ->. now exists a, b.
Qed.

Lemma mapM_Forall2 {A B} (f : A -> result B) (xs : list A) (ys : list B) :
  mapM f xs = inr ys <-> Forall2 (fun x y => f x = inr y) xs ys.
Proof.
  revert ys; induction xs as [|x xs IH]; intros ys; simpl.
  - split.
    + intros H. injection H as <-. constructor.
    + intros H. inversion H. reflexivity.
  - split.
    + destruct (f x) as [e|y] eqn:Hx; simpl; [discriminate|].
      destruct (mapM f xs) as [e|ys'] eqn:Hxs; simpl; [discriminate|].
      intros H. injection H as <-. constructor; [exact Hx|]. now apply IH.
    + intros H. inversion H as [|x0 y xs0 ys' Hx Hrest]; subst.
      rewrite Hx; simpl. apply IH in Hrest. rewrite Hrest. reflexivity.
Qed.

Section Properties.

Variable E : External.

(** ** Resolution *)

Lemma describe_format (d : IStepDefinition E) :
  describe E d =
  " " ++ pattern_text d ++ " - " ++ file d ++ ":" ++ number_to_string (line d).
Proof. unfold describe, pattern_text. destruct (expression d); reflexivity. Qed.

(** Every definition that resolution selects is registered and matches. *)
Lemma matching_registered (text : string) (r : Registry E) (d : IStepDefinition E) :
  In d (filter (matches E text) (stepDefinitions r)) <->
  In d (stepDefinitions r) /\ matches E text d = true.
Proof. apply filter_In. Qed.

Lemma resolveP (text : string) (r : Registry E) :
  resolution text r (resolveStepDefintion E text r).
Proof.
  unfold resolveStepDefintion.
  destruct (filter (matches E text) (stepDefinitions r))
    as [|d1 [|d2 rest]] eqn:Hm.
  - now apply resolution_undefined.
  - now apply resolution_unique.
  - now apply resolution_ambiguous.
Qed.

Lemma resolve_unique (text : string) (r : Registry E) (d : IStepDefinition E) :
  filter (matches E text) (stepDefinitions r) = [d] ->
  resolveStepDefintion E text r = inr (after_match E text d).
Proof. intros Hm. unfold resolveStepDefintion. now rewrite Hm. Qed.

Lemma resolved_is_unique (text : string) (r : Registry E) (d : IStepDefinition E) :
  resolveStepDefintion E text r = inr d ->
  exists d0,
    filter (matches E text) (stepDefinitions r) = [d0]
    /\ d = after_match E text d0.
Proof.
  intros Hres. destruct (resolveP text r) as [Hm | d' Hm | d1 d2 rest Hm];
    try discriminate Hres.
  exists d'. split; [exact Hm|]. now injection Hres as <-.
Qed.

Lemma resolve_ambiguous (text : string) (r : Registry E) :
  1 < List.length (filter (matches E text) (stepDefinitions r)) ->
  resolveStepDefintion E text r
  = inl (AmbiguousStepError text (filter (matches E text) (stepDefinitions r))).
Proof.
  intros Hlen. destruct (resolveP text r) as [Hm | d Hm | d1 d2 rest Hm];
    rewrite Hm in Hlen |- *; cbn in Hlen; try lia.
  reflexivity.
Qed.

(** A call of [match] changes neither the location nor the implementation
    of a definition, and nothing of a templated one. *)
Lemma after_match_templated (text : string) (d : IStepDefinition E)
    (source : string) (m : Matcher E) :
  expression d = CucumberExpression source m ->
  after_match E text d = d.
Proof.
  destruct d as [f l e i]. cbn. intros ->. reflexivity.
Qed.

Lemma after_match_templated_inv (text : string) (d : IStepDefinition E)
    (source : string) (m : Matcher E) :
  expression (after_match E text d) = CucumberExpression source m ->
  expression d = CucumberExpression source m.
Proof.
  destruct d as [f l e i]. cbn. destruct e; cbn; [trivial | discriminate].
Qed.

(** C1: a regular expression that keeps a state defeats exactly-one-match.
    When two definitions match a line, and the calls of [match] of that
    resolution leave the table in a state where one of the two alone
    matches it, the resolution fails with the ambiguity error and the next
    resolution of the same line returns that definition, without any
    error. *)
Theorem second_resolution_picks_silently (text : string) (r : Registry E)
    (d1 d2 d : IStepDefinition E) :
  filter (matches E text) (stepDefinitions r) = [d1; d2] ->
  In d [d1; d2] ->
  filter (matches E text)
         (stepDefinitions (after_resolveStepDefintion E text r))
  = [after_match E text d] ->
  resolveStepDefintion E text r = inl (AmbiguousStepError text [d1; d2])
  /\ resolveStepDefintion E text (after_resolveStepDefintion E text r)
     = inr (after_match E text (after_match E text d))
  /\ implementation (after_match E text (after_match E text d))
     = implementation d.
Proof.
  intros Hfirst _ Hsecond. repeat split.
  - rewrite resolve_ambiguous; rewrite Hfirst; [reflexivity | cbn; lia].
  - now apply resolve_unique.
Qed.

(** C4: when more than one definition matches a line, the error carries
    the heading with the line, then one line for each colliding definition,
    in registration order: a space, the source of its templated pattern or
    its regular expression, [ - ], its file, a colon and its line number. *)
Theorem ambiguous_message_lists_collisions (text : string) (r : Registry E) :
  let colliding := filter (matches E text) (stepDefinitions r) in
  1 < List.length colliding ->
  resolveStepDefintion E text r
  = inl (Error ("Multiple matching step definitions for: " ++ text ++ nl
                ++ String.concat nl
                     (map (fun d => " " ++ pattern_text d ++ " - " ++ file d
                                     ++ ":" ++ number_to_string (line d))
                          colliding))).
Proof.
  intros colliding Hlen. subst colliding.
  destruct (resolveP text r) as [Hm | d Hm | d1 d2 rest Hm];
    rewrite Hm in Hlen |- *; cbn in Hlen; try lia.
  unfold AmbiguousStepError.
  rewrite (map_ext (describe E) _ describe_format). reflexivity.
Qed.

(** ** Invocation of a step *)

(** A templated definition that resolution returns matches the line again:
    the second call of [match] in [runStepDefininition] yields captures. *)
Lemma resolved_templated_matches (text : string) (r : Registry E)
    (d : IStepDefinition E) (source : string) (m : Matcher E) :
  resolveStepDefintion E text r = inr d ->
  expression d = CucumberExpression source m ->
  exists captures, expression_match E (expression d) text = Some captures.
Proof.
  intros Hres Hexpr.
  destruct (resolved_is_unique text r d Hres) as (d0 & Hone & ->).
  apply after_match_templated_inv in Hexpr as Hexpr0.
  rewrite (after_match_templated text d0 source m Hexpr0).
  assert (In d0 (filter (matches E text) (stepDefinitions r))) as Hin
    by (rewrite Hone; now left).
  apply matching_registered in Hin as [_ Hm]. unfold matches in Hm.
  destruct (expression_match E (expression d0) text) as [captures|];
    [now exists captures | discriminate].
Qed.

(** What a run does once the line resolves and every transform returns. *)
Lemma run_resolved (world : value) (text : string) (argument : value)
    (r : Registry E) (d : IStepDefinition E)
    (captures : list (Argument E)) (values : list value) :
  resolveStepDefintion E text r = inr d ->
  expression_match E (expression d) text = Some captures ->
  mapM (fun c => getValue E c world) captures = inr values ->
  runStepDefininition E world text argument r
  = invoke E (implementation d) world
      (values ++ if truthy argument then [argument] else [])%list.
Proof.
  intros Hres Hmatch Hvals. unfold runStepDefininition.
  rewrite Hres; cbn. rewrite Hmatch; cbn. rewrite Hvals; cbn.
  destruct (truthy argument); [reflexivity | now rewrite app_nil_r].
Qed.

(** A failure of resolution or of a transform ends the run before any call
    into user code. *)
Lemma run_fails_before_call (world : value) (text : string) (argument : value)
    (r : Registry E) (e : exn) :
  resolveStepDefintion E text r = inl e ->
  runStepDefininition E world text argument r = ([], inl e).
Proof. intros Hres. unfold runStepDefininition. now rewrite Hres. Qed.

(** C2: when a line matches exactly one definition, a templated one, whose
    matcher reports N captures (one for each placeholder, from left to
    right), and [getValue] turns each capture into a value, the run makes
    one call: the implementation, with the context as receiver and, as
    arguments, these N values in the order of the captures, before the
    trailing argument if there is one. *)
Theorem run_passes_transformed_captures
    (world : value) (text : string) (argument : value) (r : Registry E)
    (d : IStepDefinition E) (source : string) (m : Matcher E)
    (captures : list (Argument E)) (values : list value) :
  filter (matches E text) (stepDefinitions r) = [d] ->
  expression d = CucumberExpression source m ->
  matcher_match E m text = Some captures ->
  Forall2 (fun c v => getValue E c world = inr v) captures values ->
  fst (runStepDefininition E world text argument r)
  = [mkCall (implementation d) world
       (values ++ if truthy argument then [argument] else [])%list]
  /\ snd (runStepDefininition E world text argument r)
     = match call_outcome E (implementation d) world
               (values ++ if truthy argument then [argument] else [])%list with
       | Some e => inl e
       | None => inr tt
       end
  /\ List.length values = List.length captures.
Proof.
  intros Hone Hexpr Hmatch Hvals.
  pose proof (resolve_unique text r d Hone) as Hres.
  rewrite (after_match_templated text d source m Hexpr) in Hres.
  assert (expression_match E (expression d) text = Some captures) as Hm
    by (rewrite Hexpr; exact Hmatch).
  rewrite (run_resolved world text argument r d captures values Hres Hm
             (proj2 (mapM_Forall2 _ _ _) Hvals)).
  repeat split. symmetry. eapply Forall2_length; eassumption.
Qed.

(** A trailing argument that converts to true is the last argument of the
    call, after the values of the captures. *)
Lemma trailing_argument_last (world : value) (text : string) (argument : value)
    (r : Registry E) (d : IStepDefinition E)
    (captures : list (Argument E)) (values : list value) :
  resolveStepDefintion E text r = inr d ->
  expression_match E (expression d) text = Some captures ->
  mapM (fun c => getValue E c world) captures = inr values ->
  truthy argument = true ->
  fst (runStepDefininition E world text argument r)
  = [mkCall (implementation d) world (values ++ [argument])%list].
Proof.
  intros Hres Hmatch Hvals Htrue.
  rewrite (run_resolved world text argument r d captures values Hres Hmatch Hvals).
  now rewrite Htrue.
Qed.

(** C6: an empty doc string is not passed on.  The test [if (argument)]
    reads the empty string as false: when the line resolves and the
    transforms return, a run with the doc string [""] calls the
    implementation with the values of the captures alone. *)
Theorem empty_doc_string_is_dropped (world : value) (text : string)
    (r : Registry E) (d : IStepDefinition E)
    (captures : list (Argument E)) (values : list value) :
  resolveStepDefintion E text r = inr d ->
  expression_match E (expression d) text = Some captures ->
  mapM (fun c => getValue E c world) captures = inr values ->
  fst (runStepDefininition E world text (VString "") r)
  = [mkCall (implementation d) world values].
Proof.
  intros Hres Hmatch Hvals.
  rewrite (run_resolved world text (VString "") r d captures values
             Hres Hmatch Hvals).
  cbn. now rewrite app_nil_r.
Qed.

(** ** Hooks *)

Lemma parse_callable_first (f : Callable) (maybeFn : value) :
  parseHookArguments E (VFunction f) maybeFn
  = if truthy maybeFn then inl InvalidHookArgumentsError
    else inr (mkHook noopNode f).
Proof. reflexivity. Qed.

(** A hook registered without tags gets the constant-true node. *)
Lemma untagged_hook_is_unconditional (optionsOrFn maybeFn : value) (h : IHook E) :
  parseHookArguments E optionsOrFn maybeFn = inr h ->
  no_tags optionsOrFn ->
  node h = noopNode.
Proof.
  intros Hparse Hno.
  destruct optionsOrFn; cbn in Hno; try contradiction.
  - rewrite parse_callable_first in Hparse.
    destruct (truthy maybeFn); [discriminate Hparse|].
    injection Hparse as <-. reflexivity.
  - destruct maybeFn; try discriminate Hparse.
    cbn in Hparse. rewrite Hno in Hparse. cbn in Hparse.
    injection Hparse as <-. reflexivity.
Qed.

Lemma forEach_invoke_all (world : value) (hooks : list (IHook E)) :
  Forall (hook_returns world) hooks ->
  forEach hooks (fun hook => invoke E (hook_implementation hook) world [])
  = (map (hook_call world) hooks, inr tt).
Proof.
  induction 1 as [|h hooks Hh _ IH]; [reflexivity|].
  cbn [forEach]. unfold invoke at 1. unfold hook_returns in Hh. rewrite Hh.
  cbn. rewrite IH. reflexivity.
Qed.

(** A hook that throws ends the run: the hooks after it are not called and
    its exception is the outcome. *)
Lemma forEach_invoke_stops (world : value) (pre post : list (IHook E))
    (h : IHook E) (e : exn) :
  Forall (hook_returns world) pre ->
  call_outcome E (hook_implementation h) world [] = Some e ->
  forEach (pre ++ h :: post)%list
          (fun hook => invoke E (hook_implementation hook) world [])
  = (map (hook_call world) (pre ++ [h])%list, inl e).
Proof.
  intros Hpre Hh. induction Hpre as [|p pre Hp _ IH]; cbn [app forEach].
  - unfold invoke at 1. rewrite Hh. reflexivity.
  - unfold invoke at 1. unfold hook_returns in Hp. rewrite Hp.
    cbn. rewrite IH. reflexivity.
Qed.

(** In every run the hooks called are an initial segment of the list, and
    the whole list when the run returns. *)
Lemma forEach_invoke_segment (world : value) (hooks : list (IHook E)) :
  exists called rest,
    hooks = (called ++ rest)%list
    /\ fst (forEach hooks
              (fun hook => invoke E (hook_implementation hook) world []))
       = map (hook_call world) called
    /\ (snd (forEach hooks
               (fun hook => invoke E (hook_implementation hook) world []))
        = inr tt -> rest = []).
Proof.
  induction hooks as [|h hooks IH].
  - exists [], []. repeat split.
  - destruct IH as (called & rest & Hsplit & Hcalls & Hdone).
    cbn [forEach]. unfold invoke at 1 3.
    destruct (call_outcome E (hook_implementation h) world []) as [e|] eqn:Hh.
    + exists [h], hooks. repeat split. cbn. discriminate.
    + exists (h :: called), rest. cbn.
      destruct (forEach hooks
                  (fun hook => invoke E (hook_implementation hook) world []))
        as [calls outcome].
      cbn in *. subst. repeat split. exact Hdone.
Qed.

Lemma selected_app (tags : list string) (a b : list (IHook E)) :
  selected tags (a ++ b)%list = (selected tags a ++ selected tags b)%list.
Proof. apply filter_app. Qed.

Lemma selected_keeps_unconditional (tags : list string)
    (table : list (IHook E)) (h : IHook E) :
  In h table -> node h = noopNode -> In h (selected tags table).
Proof.
  intros Hin Hnode. apply filter_In. split; [exact Hin|].
  now rewrite Hnode.
Qed.

(** C3: for every tag set, when the selected hooks return, a run of the
    before hooks (of the after hooks) calls exactly the hooks of that table
    whose node evaluates to true on the tag set, in registration order,
    each with the context as receiver and no argument.  In every run the
    hooks called are an initial segment of the selected ones, all of them
    when the run returns.  A hook whose node is the constant-true one, as
    a registration without tags gives it, is selected by every tag set,
    and of two selected hooks the one registered first is called first. *)
Theorem hooks_run_selected_in_order (world : value) (tags : list string)
    (r : Registry E) :
  (Forall (hook_returns world) (selected tags (beforeHooks r)) ->
     runBeforeHooks E world tags r
     = (map (hook_call world) (selected tags (beforeHooks r)), inr tt))
  /\ (Forall (hook_returns world) (selected tags (afterHooks r)) ->
        runAfterHooks E world tags r
        = (map (hook_call world) (selected tags (afterHooks r)), inr tt))
  /\ (exists called rest,
        selected tags (beforeHooks r) = (called ++ rest)%list
        /\ fst (runBeforeHooks E world tags r) = map (hook_call world) called
        /\ (snd (runBeforeHooks E world tags r) = inr tt -> rest = []))
  /\ (exists called rest,
        selected tags (afterHooks r) = (called ++ rest)%list
        /\ fst (runAfterHooks E world tags r) = map (hook_call world) called
        /\ (snd (runAfterHooks E world tags r) = inr tt -> rest = []))
  /\ (forall (table : list (IHook E)) h, In h table -> node h = noopNode ->
        In h (selected tags table))
  /\ (forall optionsOrFn maybeFn h (table : list (IHook E)),
        parseHookArguments E optionsOrFn maybeFn = inr h ->
        no_tags optionsOrFn ->
        In h (selected tags (table ++ [h])%list))
  /\ (forall pre h1 mid h2 post,
        node_evaluate E (node h1) tags = true ->
        node_evaluate E (node h2) tags = true ->
        map (hook_call world)
            (selected tags (pre ++ h1 :: mid ++ h2 :: post)%list)
        = (map (hook_call world) (selected tags pre)
           ++ hook_call world h1
           :: map (hook_call world) (selected tags mid)
           ++ hook_call world h2
           :: map (hook_call world) (selected tags post))%list).
Proof.
  repeat apply conj.
  - intros Hret. unfold runBeforeHooks. now apply forEach_invoke_all.
  - intros Hret. unfold runAfterHooks. now apply forEach_invoke_all.
  - apply forEach_invoke_segment.
  - apply forEach_invoke_segment.
  - intros table h. apply selected_keeps_unconditional.
  - intros optionsOrFn maybeFn h table Hparse Hno.
    apply selected_keeps_unconditional.
    + apply in_or_app. right. now left.
    + exact (untagged_hook_is_unconditional _ _ _ Hparse Hno).
  - intros pre h1 mid h2 post H1 H2.
    rewrite selected_app. unfold selected at 2. cbn [filter]. rewrite H1.
    fold (selected tags (mid ++ h2 :: post)%list).
    rewrite selected_app. unfold selected at 3. cbn [filter]. rewrite H2.
    fold (selected tags post).
    rewrite map_app. cbn [map]. rewrite map_app. reflexivity.
Qed.

(** ** Registration of hooks *)

Lemma parse_object_first (optionsOrFn : value) (g : Callable) :
  is_object optionsOrFn = true ->
  exists tags,
    get_prop optionsOrFn "tags" = inr tags
    /\ parseHookArguments E optionsOrFn (VFunction g)
       = if truthy tags
         then match parse E tags with
              | inl e => inl e
              | inr t => inr (mkHook (parsedNode t) g)
              end
         else inr (mkHook noopNode g).
Proof.
  intros Hobj.
  destruct optionsOrFn; try discriminate; cbn;
    (eexists; split; [reflexivity|]); cbn.
  - reflexivity.
  - destruct (truthy (assoc "tags" props)); [|reflexivity].
    destruct (parse E (assoc "tags" props)); reflexivity.
  - reflexivity.
Qed.

Lemma parse_rejects_other (optionsOrFn maybeFn : value) :
  (typeof optionsOrFn = TObject /\ (forall g, maybeFn <> VFunction g))
  \/ (typeof optionsOrFn <> TFunction /\ typeof optionsOrFn <> TObject) ->
  parseHookArguments E optionsOrFn maybeFn = inl InvalidHookArgumentsError.
Proof.
  intros [[Hobj Hfn] | [Hnf Hno]].
  - destruct optionsOrFn; try discriminate; cbn;
      destruct maybeFn; try reflexivity; now destruct (Hfn f).
  - destruct optionsOrFn; cbn in *; try reflexivity; congruence.
Qed.

(** With [null] first and a callable second the property read raises. *)
Lemma parse_null_first (g : Callable) :
  parseHookArguments E VNull (VFunction g)
  = inl (TypeError "Cannot read properties of null (reading 'tags')").
Proof. reflexivity. Qed.

(** C5, as the code has it: hook registration accepts a callable followed
    by nothing or by any value that converts to false, and registers an
    unconditional hook; it accepts an object followed by a callable, and
    registers a hook gated by the compiled tag expression when [tags]
    converts to true and the parser accepts it, an unconditional hook when
    [tags] is omitted or converts to false.  It fails with the
    invalid-hook-arguments error when a callable is followed by a value
    that converts to true, when a first argument of type "object" is not
    followed by a callable, and when the first argument is neither a
    callable nor of type "object".  Both [defineBefore] and [defineAfter]
    append the hook so parsed to their table. *)
Theorem hook_registration_shapes (optionsOrFn maybeFn : value) (r : Registry E) :
  (forall f, optionsOrFn = VFunction f -> truthy maybeFn = false ->
     parseHookArguments E optionsOrFn maybeFn = inr (mkHook noopNode f))
  /\ (forall f, optionsOrFn = VFunction f -> truthy maybeFn = true ->
        parseHookArguments E optionsOrFn maybeFn = inl InvalidHookArgumentsError)
  /\ (forall g, is_object optionsOrFn = true -> maybeFn = VFunction g ->
        exists tags,
          get_prop optionsOrFn "tags" = inr tags
          /\ (truthy tags = false ->
                parseHookArguments E optionsOrFn maybeFn = inr (mkHook noopNode g))
          /\ (forall t, truthy tags = true -> parse E tags = inr t ->
                parseHookArguments E optionsOrFn maybeFn
                = inr (mkHook (parsedNode t) g))
          /\ (forall e, truthy tags = true -> parse E tags = inl e ->
                parseHookArguments E optionsOrFn maybeFn = inl e))
  /\ (typeof optionsOrFn = TObject -> (forall g, maybeFn <> VFunction g) ->
        parseHookArguments E optionsOrFn maybeFn = inl InvalidHookArgumentsError)
  /\ (typeof optionsOrFn <> TFunction -> typeof optionsOrFn <> TObject ->
        parseHookArguments E optionsOrFn maybeFn = inl InvalidHookArgumentsError)
  /\ defineBefore E optionsOrFn maybeFn r
     = match parseHookArguments E optionsOrFn maybeFn with
       | inl e => inl e
       | inr h => inr (mkRegistry (parameterTypeRegistry r) (stepDefinitions r)
                         (beforeHooks r ++ [h])%list (afterHooks r))
       end
  /\ defineAfter E optionsOrFn maybeFn r
     = match parseHookArguments E optionsOrFn maybeFn with
       | inl e => inl e
       | inr h => inr (mkRegistry (parameterTypeRegistry r) (stepDefinitions r)
                         (beforeHooks r) (afterHooks r ++ [h])%list)
       end.
Proof.
  repeat apply conj.
  - intros f -> Hb. rewrite parse_callable_first. now rewrite Hb.
  - intros f -> Hb. rewrite parse_callable_first. now rewrite Hb.
  - intros g Hobj ->.
    destruct (parse_object_first optionsOrFn g Hobj) as (tags & Hget & Hparse).
    exists tags. split; [exact Hget|]. rewrite Hparse. repeat apply conj.
    + intros ->. reflexivity.
    + intros t -> ->. reflexivity.
    + intros e -> ->. reflexivity.
  - intros Hobj Hfn. apply parse_rejects_other. now left.
  - intros Hnf Hno. apply parse_rejects_other. now right.
  - unfold defineBefore.
    destruct (parseHookArguments E optionsOrFn maybeFn); reflexivity.
  - unfold defineAfter.
    destruct (parseHookArguments E optionsOrFn maybeFn); reflexivity.
Qed.

(** ** Registration of steps *)

(** Where a registration succeeds, the step table grows by one definition
    at its end and nothing else changes. *)
Lemma defineStep_appends_one (unparsedStack : option string) (description : value)
    (impl : Callable) (r r' : Registry E) :
  defineStep E unparsedStack description impl r = inr r' ->
  exists d,
    stepDefinitions r' = (stepDefinitions r ++ [d])%list
    /\ implementation d = impl
    /\ (line d, file d) = getDefinitionLineAndFile E unparsedStack
    /\ parameterTypeRegistry r' = parameterTypeRegistry r
    /\ beforeHooks r' = beforeHooks r
    /\ afterHooks r' = afterHooks r.
Proof.
  unfold defineStep.
  destruct (getDefinitionLineAndFile E unparsedStack) as [ln fl].
  destruct description; cbn; try discriminate.
  - unfold new_CucumberExpression.
    destruct (compile_CucumberExpression E s (parameterTypeRegistry r));
      cbn; [discriminate|].
    intros H; injection H as <-. eexists. cbn. repeat split.
  - unfold new_RegularExpression.
    destruct (compile_RegularExpression E r0 (parameterTypeRegistry r));
      cbn; [discriminate|].
    intros H; injection H as <-. eexists. cbn. repeat split.
Qed.

(** C7: [defineStep] fails with the invalid-step-pattern error when the
    pattern is neither a string nor a regular expression.  For a string
    that the expression compiler accepts, the new definition holds a
    templated expression of that source; for a regular expression that it
    accepts, a literal-regex expression of it; and every registration that
    succeeds appends exactly one definition to the step table. *)
Theorem defineStep_pattern_shapes (unparsedStack : option string)
    (description : value) (impl : Callable) (r : Registry E) :
  ((forall s, description <> VString s) ->
   (forall re, description <> VRegExp re) ->
     defineStep E unparsedStack description impl r = inl InvalidStepPatternError)
  /\ (forall s m, description = VString s ->
        compile_CucumberExpression E s (parameterTypeRegistry r) = inr m ->
        exists r' d,
          defineStep E unparsedStack description impl r = inr r'
          /\ stepDefinitions r' = (stepDefinitions r ++ [d])%list
          /\ expression d = CucumberExpression s m)
  /\ (forall re m, description = VRegExp re ->
        compile_RegularExpression E re (parameterTypeRegistry r) = inr m ->
        exists r' d,
          defineStep E unparsedStack description impl r = inr r'
          /\ stepDefinitions r' = (stepDefinitions r ++ [d])%list
          /\ expression d = RegularExpression re m)
  /\ (forall r', defineStep E unparsedStack description impl r = inr r' ->
        List.length (stepDefinitions r') = S (List.length (stepDefinitions r))).
Proof.
  repeat apply conj.
  - intros Hs Hre. unfold defineStep.
    destruct (getDefinitionLineAndFile E unparsedStack) as [ln fl].
    destruct description; try reflexivity.
    + now destruct (Hs s).
    + now destruct (Hre r0).
  - intros s m -> Hc. unfold defineStep, new_CucumberExpression.
    destruct (getDefinitionLineAndFile E unparsedStack) as [ln fl].
    rewrite Hc. cbn. do 2 eexists. repeat split.
  - intros re m -> Hc. unfold defineStep, new_RegularExpression.
    destruct (getDefinitionLineAndFile E unparsedStack) as [ln fl].
    cbn. rewrite Hc. cbn. do 2 eexists. repeat split.
  - intros r' Hdef.
    destruct (defineStep_appends_one _ _ _ _ _ Hdef) as (d & Hd & _).
    rewrite Hd, length_app. cbn. lia.
Qed.

(** C9: [Given], [When] and [Then] are [defineStep]: for every pattern
    and implementation each of them leaves the registry that [defineStep]
    leaves, or fails as it does. *)
Theorem Given_When_Then_are_defineStep (unparsedStack : option string)
    (description : value) (impl : Callable) (r : Registry E) :
  Given E (methods E) unparsedStack description impl r
  = defineStep E unparsedStack description impl r
  /\ When E (methods E) unparsedStack description impl r
     = defineStep E unparsedStack description impl r
  /\ Then E (methods E) unparsedStack description impl r
     = defineStep E unparsedStack description impl r.
Proof. repeat split. Qed.

(** ** Registration of parameter types *)

(** C8: [defineParameterType] hands the catalog a parameter type built
    from the name, the pattern, [null] and the transformer, with
    [useForSnippets] the boolean supplied, or true when it is omitted or
    not a boolean, and [preferForRegexpMatch] the boolean supplied, or
    false when it is omitted or not a boolean. *)
Theorem defineParameterType_defaults (options : IParameterTypeDefinition)
    (r : Registry E) :
  exists u p : bool,
    defineParameterType E options r
    = (pt <- new_ParameterType E (name options) (regexp options) VNull
               (transformer options) u p ;;
       reg <- registry_defineParameterType E (parameterTypeRegistry r) pt ;;
       ret (mkRegistry reg (stepDefinitions r) (beforeHooks r) (afterHooks r)))
    /\ (forall b, useForSnippets options = VBool b -> u = b)
    /\ ((forall b, useForSnippets options <> VBool b) -> u = true)
    /\ (forall b, preferForRegexpMatch options = VBool b -> p = b)
    /\ ((forall b, preferForRegexpMatch options <> VBool b) -> p = false).
Proof.
  exists (match useForSnippets options with VBool b => b | _ => true end),
         (match preferForRegexpMatch options with VBool b => b | _ => false end).
  split; [reflexivity|]. repeat apply conj.
  - intros b ->. reflexivity.
  - intros Hnb. destruct (useForSnippets options); try reflexivity.
    now destruct (Hnb b).
  - intros b ->. reflexivity.
  - intros Hnb. destruct (preferForRegexpMatch options); try reflexivity.
    now destruct (Hnb b).
Qed.

(** ** Source location of a registration *)

Lemma is_user_frame_spec (frame : StackFrame) :
  is_user_frame frame = true <-> outside_preprocessor frame.
Proof.
  unfold is_user_frame, outside_preprocessor, isFileNameInpreprocessor.
  destruct (frame_file frame) as [f|].
  - rewrite andb_true_iff, !negb_true_iff. split.
    + intros [Hne Hinc]. exists f. repeat split; [|exact Hinc].
      now apply String.eqb_neq.
    + intros (f' & Hf & Hne & Hinc). injection Hf as <-.
      split; [now apply String.eqb_neq | exact Hinc].
  - split; [discriminate|]. intros (f' & Hf & _). discriminate.
Qed.

Lemma find_first {A} (f : A -> bool) (pre post : list A) (x : A) :
  (forall y, In y pre -> f y = false) -> f x = true ->
  find f (pre ++ x :: post)%list = Some x.
Proof.
  intros Hpre Hx. induction pre as [|y pre IH]; cbn.
  - now rewrite Hx.
  - rewrite (Hpre y (or_introl eq_refl)). apply IH.
    intros z Hz. apply Hpre. now right.
Qed.

Lemma find_nowhere {A} (f : A -> bool) (l : list A) :
  (forall y, In y l -> f y = false) -> find f l = None.
Proof.
  intros Hl. induction l as [|y l IH]; cbn; [reflexivity|].
  rewrite (Hl y (or_introl eq_refl)). apply IH.
  intros z Hz. apply Hl. now right.
Qed.

Lemma location_by_find (unparsedStack : option string) :
  getDefinitionLineAndFile E unparsedStack
  = match find is_user_frame (searched_frames E unparsedStack) with
    | Some stackframe =>
        (match frame_lineNumber stackframe with Some n => n | None => 0%N end,
         match frame_file stackframe with
         | Some f => if f =? "" then "unkown" else f
         | None => "unkown"
         end)
    | None => (0%N, "unknown")
    end.
Proof.
  unfold getDefinitionLineAndFile, searched_frames.
  destruct unparsedStack as [stack|]; [|reflexivity].
  destruct (stack =? ""); [reflexivity|].
  destruct (find is_user_frame (stackTraceParser_parse E stack)) as [fr|];
    [|reflexivity].
  f_equal. destruct (frame_lineNumber fr) as [n|]; [|reflexivity].
  destruct (N.eqb_spec n 0); congruence.
Qed.

(** The location of a registration is that of the first frame outside the
    preprocessor: its file, and its line number or 0. *)
Lemma location_of_first_user_frame (unparsedStack : option string)
    (pre post : list StackFrame) (frame : StackFrame) (f : string) :
  searched_frames E unparsedStack = (pre ++ frame :: post)%list ->
  (forall p, In p pre -> ~ outside_preprocessor p) ->
  outside_preprocessor frame ->
  frame_file frame = Some f ->
  getDefinitionLineAndFile E unparsedStack
  = (match frame_lineNumber frame with Some n => n | None => 0%N end, f).
Proof.
  intros Hframes Hpre Hout Hfile.
  rewrite location_by_find, Hframes, (find_first is_user_frame pre post frame).
  - rewrite Hfile. destruct Hout as (f' & Hf' & Hne & _).
    rewrite Hfile in Hf'. injection Hf' as <-.
    apply String.eqb_neq in Hne. now rewrite Hne.
  - intros p Hp. specialize (Hpre p Hp).
    destruct (is_user_frame p) eqn:Hu; [|reflexivity].
    now apply is_user_frame_spec in Hu.
  - now apply is_user_frame_spec.
Qed.

(** C10: the capture of the source location always yields a location and
    never decides whether a registration fails.  When no searched frame
    names a file outside the preprocessor, the location is the file
    [unknown] at line 0; when the first such frame has no line number, it
    is that frame's file at line 0; and a registration that fails fails
    the same way whatever the stack. *)
Theorem definition_location_total (unparsedStack : option string) :
  ((forall frame, In frame (searched_frames E unparsedStack) ->
      ~ outside_preprocessor frame) ->
     getDefinitionLineAndFile E unparsedStack = (0%N, "unknown"))
  /\ (forall pre frame post,
        searched_frames E unparsedStack = (pre ++ frame :: post)%list ->
        (forall p, In p pre -> ~ outside_preprocessor p) ->
        outside_preprocessor frame ->
        frame_lineNumber frame = None ->
        exists f, frame_file frame = Some f
                  /\ getDefinitionLineAndFile E unparsedStack = (0%N, f))
  /\ (forall description impl r e,
        defineStep E unparsedStack description impl r = inl e ->
        forall otherStack,
          defineStep E otherStack description impl r = inl e)
  /\ (forall description impl r r',
        defineStep E unparsedStack description impl r = inr r' ->
        exists d, stepDefinitions r' = (stepDefinitions r ++ [d])%list
                  /\ (line d, file d) = getDefinitionLineAndFile E unparsedStack).
Proof.
  repeat apply conj.
  - intros Hnone. rewrite location_by_find, find_nowhere; [reflexivity|].
    intros p Hp. specialize (Hnone p Hp).
    destruct (is_user_frame p) eqn:Hu; [|reflexivity].
    now apply is_user_frame_spec in Hu.
  - intros pre frame post Hframes Hpre Hout Hline.
    destruct Hout as (f & Hfile & Hrest). exists f. split; [exact Hfile|].
    rewrite (location_of_first_user_frame unparsedStack pre post frame f
               Hframes Hpre (ex_intro _ f (conj Hfile Hrest)) Hfile).
    now rewrite Hline.
  - intros description impl r e Hfail otherStack. revert Hfail.
    unfold defineStep.
    destruct (getDefinitionLineAndFile E unparsedStack) as [ln fl].
    destruct (getDefinitionLineAndFile E otherStack) as [ln' fl'].
    destruct description; cbn; try (intros H; exact H).
    + destruct (new_CucumberExpression E s (parameterTypeRegistry r));
        cbn; [intros H; exact H | discriminate].
    + destruct (new_RegularExpression E r0 (parameterTypeRegistry r));
        cbn; [intros H; exact H | discriminate].
  - intros description impl r r' Hdef.
    destruct (defineStep_appends_one _ _ _ _ _ Hdef) as (d & Hd & _ & Hloc & _).
    exists d. now split.
Qed.

End Properties.

(** * The registry at work on the small instance *)

Example resolve_undefined_example :
  resolveStepDefintion Sample.ext "no step" Sample.registry
  = inl (Error "Step implementation missing for: no step").
Proof. reflexivity. Qed.

Example resolve_single_example :
  resolveStepDefintion Sample.ext "a doc string step" Sample.registry
  = inr (mkStep "unknown" 0%N
           (CucumberExpression "a doc string step"
              (Sample.Literal "a doc string step" : Matcher Sample.ext))
           "doc").
Proof. reflexivity. Qed.

(** The line [a step] matches a templated pattern and a regular
    expression: the message lists both. *)
Lemma ambiguous_message_witness :
  1 < List.length (filter (matches Sample.ext "a step")
                          (stepDefinitions Sample.registry))
  /\ resolveStepDefintion Sample.ext "a step" Sample.registry
     = inl (Error ("Multiple matching step definitions for: a step" ++ nl
                   ++ " a step - cypress/support/step_definitions/steps.js:3" ++ nl
                   ++ " /a st/i - cypress/support/step_definitions/steps.js:0")).
Proof.
  split.
  - vm_compute. lia.
  - apply (ambiguous_message_lists_collisions Sample.ext "a step" Sample.registry).
    vm_compute. lia.
Defined.

(** A templated pattern and a regular expression with the flag [g] that
    both match the line [a step]: the first resolution is ambiguous, the
    second returns the templated definition. *)
Lemma second_resolution_witness :
  resolveStepDefintion Sample.ext "a step" Scenarios.collision
  = inl (Error ("Multiple matching step definitions for: a step" ++ nl
                ++ " a step - cypress/support/step_definitions/steps.js:3" ++ nl
                ++ " /a st/g - cypress/support/step_definitions/steps.js:3"))
  /\ resolveStepDefintion Sample.ext "a step"
       (after_resolveStepDefintion Sample.ext "a step" Scenarios.collision)
     = inr (mkStep "cypress/support/step_definitions/steps.js" 3%N
              (CucumberExpression "a step"
                 (Sample.Literal "a step" : Matcher Sample.ext))
              "first").
Proof.
  destruct (second_resolution_picks_silently Sample.ext "a step"
              Scenarios.collision
              (mkStep "cypress/support/step_definitions/steps.js" 3%N
                 (CucumberExpression "a step"
                    (Sample.Literal "a step" : Matcher Sample.ext))
                 "first")
              (mkStep "cypress/support/step_definitions/steps.js" 3%N
                 (RegularExpression (mkRegExp "a st" "g")
                    (Sample.Global "a st" 0 : Matcher Sample.ext))
                 "second")
              (mkStep "cypress/support/step_definitions/steps.js" 3%N
                 (CucumberExpression "a step"
                    (Sample.Literal "a step" : Matcher Sample.ext))
                 "first")
              eq_refl (or_introl eq_refl) eq_refl)
    as (Hfirst & Hsecond & _).
  split; [exact Hfirst | exact Hsecond].
Defined.

(** The state of the regular expression comes back after the failure: the
    third resolution is ambiguous again. *)
Example third_resolution_example :
  resolveStepDefintion Sample.ext "a step"
    (after_resolveStepDefintion Sample.ext "a step"
       (after_resolveStepDefintion Sample.ext "a step" Scenarios.collision))
  = resolveStepDefintion Sample.ext "a step" Scenarios.collision.
Proof. reflexivity. Qed.

(** A regular expression with the flag [g] alone: the resolution returns
    its definition, the second [match] yields [null] and the run fails
    before any call. *)
Example stateful_regexp_run_example :
  runStepDefininition Sample.ext VNull "a step" VUndefined Scenarios.global_only
  = ([], inl (TypeError "Cannot read properties of null (reading 'map')")).
Proof. reflexivity. Qed.

(** [there are {int} items] on the line [there are 5 items], with a data
    table: the implementation receives the number 5, then the table. *)
Lemma run_passes_transformed_captures_witness :
  fst (runStepDefininition Sample.ext (VObject []) "there are 5 items"
         (VDataTable [["a"; "b"]]) Sample.registry)
  = [mkCall "count" (VObject []) [VNumber 5; VDataTable [["a"; "b"]]]]
  /\ snd (runStepDefininition Sample.ext (VObject []) "there are 5 items"
            (VDataTable [["a"; "b"]]) Sample.registry)
     = inr tt
  /\ List.length [VNumber 5] = List.length [("int", "5")].
Proof.
  apply (run_passes_transformed_captures Sample.ext (VObject [])
           "there are 5 items" (VDataTable [["a"; "b"]]) Sample.registry
           (mkStep "cypress/support/step_definitions/steps.js" 3%N
              (CucumberExpression "there are {int} items"
                 (Sample.IntSlot "there are " " items" : Matcher Sample.ext))
              "count")
           "there are {int} items" (Sample.IntSlot "there are " " items")
           [("int", "5")] [VNumber 5]).
  - reflexivity.
  - reflexivity.
  - reflexivity.
  - repeat constructor.
Defined.

(** The step [a doc string step] run with the empty doc string: the
    implementation is called without argument. *)
Lemma empty_doc_string_witness :
  fst (runStepDefininition Sample.ext (VObject []) "a doc string step"
         (VString "") Sample.registry)
  = [mkCall "doc" (VObject []) []].
Proof.
  apply (empty_doc_string_is_dropped Sample.ext (VObject [])
           "a doc string step" Sample.registry
           (mkStep "unknown" 0%N
              (CucumberExpression "a doc string step"
                 (Sample.Literal "a doc string step" : Matcher Sample.ext))
              "doc")
           [] []); reflexivity.
Defined.

(** With a non-empty doc string the same step receives it. *)
Example doc_string_passed_example :
  fst (runStepDefininition Sample.ext (VObject []) "a doc string step"
         (VString "a foo doc string") Sample.registry)
  = [mkCall "doc" (VObject []) [VString "a foo doc string"]].
Proof. reflexivity. Qed.

(** The before hooks under the tag set [@x]: the untagged hooks and the one
    tagged [@x] run, in registration order; the one tagged [not @x] does
    not, and the after hook is not touched. *)
Lemma hooks_run_selected_witness :
  Forall (hook_returns (VObject []))
         (selected ["@x"] (beforeHooks Sample.registry))
  /\ runBeforeHooks Sample.ext (VObject []) ["@x"] Sample.registry
     = ([mkCall "h1" (VObject []) []; mkCall "h2" (VObject []) [];
         mkCall "h4" (VObject []) []], inr tt).
Proof.
  assert (Forall (hook_returns (VObject []))
                 (selected ["@x"] (beforeHooks Sample.registry))) as Hret
    by (repeat constructor).
  split; [exact Hret|].
  exact (proj1 (hooks_run_selected_in_order Sample.ext (VObject []) ["@x"]
                  Sample.registry) Hret).
Defined.

(** A hook that throws ends the run: the hook after it is not called. *)
Example throwing_hook_example :
  forEach [mkHook noopNode "boom"; mkHook noopNode "h2" : IHook Sample.ext]
          (fun hook => invoke Sample.ext (hook_implementation hook) VNull [])
  = ([mkCall "boom" VNull []], inl (Foreign "boom")).
Proof. reflexivity. Qed.

(** A callable followed by the number 0 is neither a single callable nor
    an options object with a callable, and yet it registers an
    unconditional hook instead of failing. *)
Lemma callable_then_zero_is_accepted :
  defineBefore Sample.ext (VFunction "f") (VNumber 0) (constructor Sample.ext)
  = inr (mkRegistry (new_ParameterTypeRegistry Sample.ext) []
           [mkHook noopNode "f"] [])
  /\ defineBefore Sample.ext (VFunction "f") (VNumber 0) (constructor Sample.ext)
     <> inl InvalidHookArgumentsError.
Proof. split; [reflexivity | discriminate]. Defined.

(** [null] followed by a callable fails, with the engine's error for the
    property read and not with the registry's own. *)
Example null_then_callable_example :
  defineBefore Sample.ext VNull (VFunction "f") (constructor Sample.ext)
  = inl (TypeError "Cannot read properties of null (reading 'tags')").
Proof. reflexivity. Qed.

(** The shapes of hook registration on the options [{tags: "@x"}]. *)
Lemma hook_registration_shapes_witness :
  parseHookArguments Sample.ext (VObject [("tags", VString "@x")]) (VFunction "h")
  = inr (mkHook (parsedNode (Sample.Tag "@x" : TagNode Sample.ext)) "h").
Proof.
  destruct (hook_registration_shapes Sample.ext
              (VObject [("tags", VString "@x")]) (VFunction "h")
              (constructor Sample.ext))
    as (_ & _ & Hobj & _).
  destruct (Hobj "h" eq_refl eq_refl) as (tags & Hget & _ & Hparsed & _).
  injection Hget as <-.
  exact (Hparsed (Sample.Tag "@x") eq_refl eq_refl).
Defined.

(** A callable followed by a second callable is rejected, and so is a
    number in the place of the options. *)
Example two_callables_rejected_example :
  defineBefore Sample.ext (VFunction "f") (VFunction "g") (constructor Sample.ext)
  = inl InvalidHookArgumentsError
  /\ defineAfter Sample.ext (VNumber 3) (VFunction "g") (constructor Sample.ext)
     = inl InvalidHookArgumentsError.
Proof. split; reflexivity. Qed.

(** Registration of the pattern [a step] in the empty registry. *)
Lemma defineStep_pattern_shapes_witness :
  exists r' d,
    defineStep Sample.ext (Some "user frame") (VString "a step") "impl"
      (constructor Sample.ext) = inr r'
    /\ stepDefinitions r' = [d]
    /\ expression d
       = CucumberExpression "a step" (Sample.Literal "a step" : Matcher Sample.ext).
Proof.
  exact (proj1 (proj2 (defineStep_pattern_shapes Sample.ext (Some "user frame")
                         (VString "a step") "impl" (constructor Sample.ext)))
           "a step" (Sample.Literal "a step") eq_refl eq_refl).
Defined.

Example defineStep_rejects_number_example :
  defineStep Sample.ext (Some "user frame") (VNumber 42) "impl"
    (constructor Sample.ext)
  = inl (Error "Unexpected argument for step definition").
Proof. reflexivity. Qed.

(** A parameter type registered without the two flags, and one with
    [useForSnippets] false and a string for [preferForRegexpMatch]. *)
Example defineParameterType_example :
  defineParameterType Sample.ext
    (mkParameterTypeDefinition (VString "color") (VRegExp (mkRegExp "red|blue" ""))
       (VFunction "toColor") VUndefined VUndefined)
    (constructor Sample.ext)
  = inr (mkRegistry
           ([(VString "color", VRegExp (mkRegExp "red|blue" ""), VNull,
              VFunction "toColor", true, false)]
            : ParameterTypeRegistry Sample.ext) [] [] [])
  /\ defineParameterType Sample.ext
       (mkParameterTypeDefinition (VString "color") (VRegExp (mkRegExp "red|blue" ""))
          (VFunction "toColor") (VBool false) (VString "yes"))
       (constructor Sample.ext)
     = inr (mkRegistry
              ([(VString "color", VRegExp (mkRegExp "red|blue" ""), VNull,
                 VFunction "toColor", false, false)]
               : ParameterTypeRegistry Sample.ext) [] [] [])
  /\ defineParameterType Sample.ext
       (mkParameterTypeDefinition (VString "color") (VRegExp (mkRegExp "red|blue" ""))
          (VFunction "toColor") (VNumber 1) (VBool true))
       (constructor Sample.ext)
     = inr (mkRegistry
              ([(VString "color", VRegExp (mkRegExp "red|blue" ""), VNull,
                 VFunction "toColor", true, true)]
               : ParameterTypeRegistry Sample.ext) [] [] []).
Proof. repeat split. Qed.

(** A stack with frames of the preprocessor only, and one whose first user
    frame has no line number. *)
Lemma definition_location_witness :
  getDefinitionLineAndFile Sample.ext (Some "internal only") = (0%N, "unknown")
  /\ exists f,
       Some "cypress/support/step_definitions/steps.js" = Some f
       /\ getDefinitionLineAndFile Sample.ext (Some "user frame without line")
          = (0%N, f).
Proof.
  split.
  - apply (proj1 (definition_location_total Sample.ext (Some "internal only"))).
    intros frame [<- | [<- | []]]; intros (f & Hf & Hne & Hinc); cbn in Hf;
      [injection Hf as <-; vm_compute in Hinc; discriminate | discriminate].
  - apply (proj1 (proj2 (definition_location_total Sample.ext
                           (Some "user frame without line")))
             [mkStackFrame
                (Some "node_modules/@badeball/cypress-cucumber-preprocessor/lib/registry.js")
                "defineStep" (Some 151%N) (Some 5%N)]
             (mkStackFrame (Some "cypress/support/step_definitions/steps.js")
                "<unknown>" None None)
             []).
    + reflexivity.
    + intros p [<- | []] (f & Hf & Hne & Hinc). cbn in Hf.
      injection Hf as <-. vm_compute in Hinc. discriminate.
    + exists "cypress/support/step_definitions/steps.js". repeat split.
      discriminate.
    + reflexivity.
Defined.

(** * Further properties of the registry *)

Section Further.

Variable E : External.

(** ** Source location *)

(** X1: a path counts as the preprocessor's own exactly when the package
    name occurs in it, at any position. *)
Theorem isFileNameInpreprocessor_spec (filepath : string) :
  isFileNameInpreprocessor filepath = true
  <-> exists before after,
        filepath = before ++ "@badeball/cypress-cucumber-preprocessor" ++ after.
Proof.
  unfold isFileNameInpreprocessor. split.
  - intros Hinc. now apply includes_spec in Hinc.
  - intros Hocc. now apply includes_spec.
Qed.

Lemma find_split {A} (f : A -> bool) (l : list A) (x : A) :
  find f l = Some x ->
  exists pre post,
    l = (pre ++ x :: post)%list
    /\ (forall y, In y pre -> f y = false)
    /\ f x = true.
Proof.
  induction l as [|y l IH]; cbn; [discriminate|].
  destruct (f y) eqn:Hy.
  - intros H. injection H as ->. exists [], l. repeat split; [|exact Hy].
    intros z [].
  - intros H. destruct (IH H) as (pre & post & -> & Hpre & Hx).
    exists (y :: pre), post. repeat split; [|exact Hx].
    intros z [<- | Hz]; [exact Hy | now apply Hpre].
Qed.

Lemma not_user_frame (frame : StackFrame) (f : string) :
  is_user_frame frame = false ->
  frame_file frame = Some f ->
  f = "" \/ isFileNameInpreprocessor f = true.
Proof.
  unfold is_user_frame. intros Hu Hf. rewrite Hf in Hu.
  apply andb_false_iff in Hu as [Hu | Hu]; apply negb_false_iff in Hu.
  - left. now apply String.eqb_eq.
  - now right.
Qed.

(** X2: the location recorded for a registration is that of the first
    frame of the parsed stack that names a file whose name is not empty
    and does not contain the package name: that file, with the frame's
    line number, 0 when it has none.  It is the file [unknown] at line 0
    when the stack has no such frame. *)
Theorem recorded_location_is_first_candidate (unparsedStack : option string) :
  (getDefinitionLineAndFile E unparsedStack = (0%N, "unknown")
   /\ forall frame f,
        In frame (searched_frames E unparsedStack) ->
        frame_file frame = Some f ->
        f = "" \/ isFileNameInpreprocessor f = true)
  \/ exists pre frame post f,
       searched_frames E unparsedStack = (pre ++ frame :: post)%list
       /\ (forall p g, In p pre -> frame_file p = Some g ->
             g = "" \/ isFileNameInpreprocessor g = true)
       /\ frame_file frame = Some f
       /\ f <> ""
       /\ isFileNameInpreprocessor f = false
       /\ getDefinitionLineAndFile E unparsedStack
          = (match frame_lineNumber frame with Some n => n | None => 0%N end, f).
Proof.
  rewrite location_by_find.
  destruct (find is_user_frame (searched_frames E unparsedStack))
    as [frame|] eqn:Hfind.
  - right. apply find_split in Hfind as (pre & post & Hsplit & Hpre & Huser).
    apply is_user_frame_spec in Huser as (f & Hfile & Hne & Hinc).
    exists pre, frame, post, f. repeat split; try assumption.
    + intros p g Hp Hg. exact (not_user_frame p g (Hpre p Hp) Hg).
    + rewrite Hfile. apply String.eqb_neq in Hne. now rewrite Hne.
  - left. split; [reflexivity|].
    intros frame f Hin Hf.
    exact (not_user_frame frame f (find_none _ _ Hfind frame Hin) Hf).
Qed.

(** ** Registration and resolution *)

Lemma filter_snoc {A} (f : A -> bool) (l : list A) (x : A) :
  filter f (l ++ [x])%list = (filter f l ++ if f x then [x] else [])%list.
Proof. rewrite filter_app. cbn. now destruct (f x). Qed.

Lemma resolve_by_matching (text : string) (r r' : Registry E) :
  filter (matches E text) (stepDefinitions r')
  = filter (matches E text) (stepDefinitions r) ->
  resolveStepDefintion E text r' = resolveStepDefintion E text r.
Proof. intros Hm. unfold resolveStepDefintion. now rewrite Hm. Qed.

Lemma undefined_has_no_match (text : string) (r : Registry E) :
  resolveStepDefintion E text r = inl (UndefinedStepError text) ->
  filter (matches E text) (stepDefinitions r) = [].
Proof.
  intros Hres. destruct (resolveP E text r) as [Hm | d Hm | d1 d2 rest Hm].
  - exact Hm.
  - discriminate Hres.
  - unfold AmbiguousStepError, UndefinedStepError in Hres. cbn in Hres.
    discriminate Hres.
Qed.

Lemma ambiguous_has_matches (text : string) (r : Registry E)
    (colliding : list (IStepDefinition E)) :
  resolveStepDefintion E text r = inl (AmbiguousStepError text colliding) ->
  1 < List.length (filter (matches E text) (stepDefinitions r)).
Proof.
  intros Hres. destruct (resolveP E text r) as [Hm | d Hm | d1 d2 rest Hm].
  - unfold AmbiguousStepError, UndefinedStepError in Hres. cbn in Hres.
    discriminate Hres.
  - discriminate Hres.
  - rewrite Hm. cbn. lia.
Qed.

Lemma two_matches_are_ambiguous (text : string) (r : Registry E)
    (l1 l2 l3 : list (IStepDefinition E)) (d1 d2 : IStepDefinition E) :
  stepDefinitions r = (l1 ++ d1 :: l2 ++ d2 :: l3)%list ->
  matches E text d1 = true ->
  matches E text d2 = true ->
  resolveStepDefintion E text r
  = inl (AmbiguousStepError text (filter (matches E text) (stepDefinitions r)))
  /\ In d1 (filter (matches E text) (stepDefinitions r))
  /\ In d2 (filter (matches E text) (stepDefinitions r)).
Proof.
  intros Hsteps H1 H2.
  assert (filter (matches E text) (stepDefinitions r)
          = (filter (matches E text) l1
             ++ d1 :: filter (matches E text) l2
             ++ d2 :: filter (matches E text) l3)%list) as Hfilter.
  { rewrite Hsteps, filter_app. cbn. rewrite H1, filter_app. cbn.
    now rewrite H2. }
  repeat split.
  - apply (resolve_ambiguous E). rewrite Hfilter, length_app. cbn.
    rewrite length_app. cbn. lia.
  - rewrite Hfilter. apply in_or_app. right. now left.
  - rewrite Hfilter. apply in_or_app. right. right.
    apply in_or_app. right. now left.
Qed.

Lemma matches_templated (text : string) (d : IStepDefinition E)
    (source : string) (m : Matcher E) (captures : list (Argument E)) :
  expression d = CucumberExpression source m ->
  matcher_match E m text = Some captures ->
  matches E text d = true.
Proof. intros Hexpr Hm. unfold matches. rewrite Hexpr. cbn. now rewrite Hm. Qed.

(** What an operation does to the step table: a registration of a step
    appends one definition, every other operation maps the table through
    calls of [match], which keep the location and the implementation of a
    definition and the whole of a templated one. *)
Lemma operation_on_steps (r r' : Registry E) :
  operation E r r' ->
  (exists d, stepDefinitions r' = (stepDefinitions r ++ [d])%list
             /\ exists unparsedStack,
                  (line d, file d) = getDefinitionLineAndFile E unparsedStack)
  \/ (exists g,
        stepDefinitions r' = map g (stepDefinitions r)
        /\ forall d,
             file (g d) = file d /\ line (g d) = line d
             /\ implementation (g d) = implementation d
             /\ (forall source m, expression d = CucumberExpression source m ->
                   g d = d)).
Proof.
  intros [stack description impl r2 Hdef | options r2 Hdef
          | a b r2 Hdef | a b r2 Hdef | text | text].
  - left. destruct (defineStep_appends_one E _ _ _ _ _ Hdef)
      as (d & Hsteps & _ & Hloc & _).
    exists d. split; [exact Hsteps | now exists stack].
  - right. exists (fun d => d). unfold defineParameterType in Hdef.
    destruct (new_ParameterType E _ _ _ _ _ _) as [e|pt]; [discriminate Hdef|].
    cbn in Hdef.
    destruct (registry_defineParameterType E _ pt) as [e|reg];
      [discriminate Hdef|].
    cbn in Hdef. injection Hdef as <-. cbn. rewrite map_id.
    split; [reflexivity | intros d; repeat split].
  - right. exists (fun d => d). unfold defineBefore in Hdef.
    destruct (parseHookArguments E a b) as [e|h]; [discriminate Hdef|].
    cbn in Hdef. injection Hdef as <-. cbn. rewrite map_id.
    split; [reflexivity | intros d; repeat split].
  - right. exists (fun d => d). unfold defineAfter in Hdef.
    destruct (parseHookArguments E a b) as [e|h]; [discriminate Hdef|].
    cbn in Hdef. injection Hdef as <-. cbn. rewrite map_id.
    split; [reflexivity | intros d; repeat split].
  - right. exists (after_match E text). split; [reflexivity|].
    intros d. repeat split. intros source m. apply after_match_templated.
  - right. unfold after_runStepDefininition.
    destruct (resolveStepDefintion E text r) as [e|d0].
    + exists (after_match E text). split; [reflexivity|].
      intros d. repeat split. intros source m. apply after_match_templated.
    + exists (fun d => if matches E text d
                       then after_match E text (after_match E text d)
                       else after_match E text d).
      split; [reflexivity|].
      intros d. destruct (matches E text d); repeat split;
        intros source m Hexpr;
        now rewrite !(after_match_templated E text d source m Hexpr).
Qed.

(** Two templated definitions stay in the table, in their order, whatever
    the registry goes through. *)
Lemma evolves_keeps_templated (r r' : Registry E)
    (l1 l2 l3 : list (IStepDefinition E)) (d1 d2 : IStepDefinition E)
    (s1 s2 : string) (m1 m2 : Matcher E) :
  evolves E r r' ->
  stepDefinitions r = (l1 ++ d1 :: l2 ++ d2 :: l3)%list ->
  expression d1 = CucumberExpression s1 m1 ->
  expression d2 = CucumberExpression s2 m2 ->
  exists l1' l2' l3',
    stepDefinitions r' = (l1' ++ d1 :: l2' ++ d2 :: l3')%list.
Proof.
  intros Hev Hsteps He1 He2.
  induction Hev as [|ra rb _ IH Hop]; [now exists l1, l2, l3|].
  destruct IH as (a1 & a2 & a3 & Ha).
  destruct (operation_on_steps ra rb Hop)
    as [(d & Hd & _) | (g & Hg & Hkeep)].
  - exists a1, a2, (a3 ++ [d])%list. rewrite Hd, Ha.
    rewrite <- !app_assoc. cbn. rewrite <- !app_assoc. reflexivity.
  - exists (map g a1), (map g a2), (map g a3).
    rewrite Hg, Ha, map_app. cbn. rewrite map_app. cbn.
    destruct (Hkeep d1) as (_ & _ & _ & Hd1).
    destruct (Hkeep d2) as (_ & _ & _ & Hd2).
    now rewrite (Hd1 s1 m1 He1), (Hd2 s2 m2 He2).
Qed.

(** X3: how a registration changes resolution, each resolution taken in
    the state the registry is in.  The definition appended leaves a line
    it does not match resolving as in the registry before the
    registration; a line it matches resolves to it when that registry
    found the line undefined, and is ambiguous between the earlier
    definition and the new one when that registry resolved the line. *)
Theorem registration_then_resolution (unparsedStack : option string)
    (description : value) (impl : Callable) (r r' : Registry E) :
  defineStep E unparsedStack description impl r = inr r' ->
  exists d,
    stepDefinitions r' = (stepDefinitions r ++ [d])%list
    /\ implementation d = impl
    /\ forall text,
         (expression_match E (expression d) text = None ->
            resolveStepDefintion E text r' = resolveStepDefintion E text r)
         /\ (expression_match E (expression d) text <> None ->
               resolveStepDefintion E text r = inl (UndefinedStepError text) ->
               resolveStepDefintion E text r' = inr (after_match E text d))
         /\ (expression_match E (expression d) text <> None ->
               forall d0, resolveStepDefintion E text r = inr d0 ->
               exists d0',
                 d0 = after_match E text d0'
                 /\ In d0' (stepDefinitions r)
                 /\ resolveStepDefintion E text r'
                    = inl (AmbiguousStepError text [d0'; d])).
Proof.
  intros Hdef.
  destruct (defineStep_appends_one E _ _ _ _ _ Hdef) as (d & Hsteps & Himpl & _).
  exists d. split; [exact Hsteps|]. split; [exact Himpl|].
  intros text.
  assert (filter (matches E text) (stepDefinitions r')
          = (filter (matches E text) (stepDefinitions r)
             ++ if matches E text d then [d] else [])%list) as Hfilter
    by (rewrite Hsteps; apply filter_snoc).
  assert (expression_match E (expression d) text <> None ->
          matches E text d = true) as Hyes.
  { unfold matches. destruct (expression_match E (expression d) text);
      [reflexivity | intros H; now destruct H]. }
  repeat apply conj.
  - intros Hd. apply resolve_by_matching.
    rewrite Hfilter. unfold matches at 2. rewrite Hd. apply app_nil_r.
  - intros Hd Hundef. apply (resolve_unique E).
    rewrite Hfilter, (Hyes Hd), (undefined_has_no_match text r Hundef).
    reflexivity.
  - intros Hd d0 Hres.
    destruct (resolved_is_unique E text r d0 Hres) as (d0' & Hone & ->).
    exists d0'. split; [reflexivity|]. split.
    + assert (In d0' (filter (matches E text) (stepDefinitions r))) as Hin
        by (rewrite Hone; now left).
      now apply filter_In in Hin.
    + rewrite (resolve_ambiguous E);
        rewrite Hfilter, (Hyes Hd), Hone; [reflexivity | cbn; lia].
Qed.

(** X4: an ambiguity between templated patterns is permanent.  When two
    templated definitions of the table match a line, every resolution of
    that line fails with the ambiguity error, both definitions among the
    collisions, in whatever state the registry is after further
    registrations, resolutions and runs. *)
Theorem templated_ambiguity_is_permanent (r r' : Registry E) (text : string)
    (l1 l2 l3 : list (IStepDefinition E)) (d1 d2 : IStepDefinition E)
    (s1 s2 : string) (m1 m2 : Matcher E) (c1 c2 : list (Argument E)) :
  stepDefinitions r = (l1 ++ d1 :: l2 ++ d2 :: l3)%list ->
  expression d1 = CucumberExpression s1 m1 ->
  expression d2 = CucumberExpression s2 m2 ->
  matcher_match E m1 text = Some c1 ->
  matcher_match E m2 text = Some c2 ->
  evolves E r r' ->
  exists colliding,
    resolveStepDefintion E text r' = inl (AmbiguousStepError text colliding)
    /\ In d1 colliding /\ In d2 colliding.
Proof.
  intros Hsteps He1 He2 Hm1 Hm2 Hev.
  destruct (evolves_keeps_templated r r' l1 l2 l3 d1 d2 s1 s2 m1 m2
              Hev Hsteps He1 He2) as (a1 & a2 & a3 & Ha).
  exists (filter (matches E text) (stepDefinitions r')).
  exact (two_matches_are_ambiguous text r' a1 a2 a3 d1 d2 Ha
           (matches_templated text d1 s1 m1 c1 He1 Hm1)
           (matches_templated text d2 s2 m2 c2 He2 Hm2)).
Qed.

(** X5: a templated pattern registered twice is of no use.  The two
    registrations append two definitions with the same expression, and
    from then on every resolution of a line that pattern matches fails
    with the ambiguity error, both definitions among the collisions. *)
Theorem duplicate_string_pattern_is_ambiguous (stack1 stack2 : option string)
    (source : string) (impl1 impl2 : Callable) (r r1 r2 : Registry E) :
  defineStep E stack1 (VString source) impl1 r = inr r1 ->
  defineStep E stack2 (VString source) impl2 r1 = inr r2 ->
  exists d1 d2 m,
    stepDefinitions r2 = (stepDefinitions r ++ [d1; d2])%list
    /\ expression d1 = CucumberExpression source m
    /\ expression d2 = CucumberExpression source m
    /\ implementation d1 = impl1 /\ implementation d2 = impl2
    /\ forall r' text captures,
         evolves E r2 r' ->
         matcher_match E m text = Some captures ->
         exists colliding,
           resolveStepDefintion E text r'
           = inl (AmbiguousStepError text colliding)
           /\ In d1 colliding /\ In d2 colliding.
Proof.
  intros H1 H2.
  destruct (defineStep_appends_one E _ _ _ _ _ H1)
    as (d1 & Hs1 & Hi1 & _ & Hreg1 & _).
  destruct (defineStep_appends_one E _ _ _ _ _ H2) as (d2 & Hs2 & Hi2 & _).
  assert (exists m, expression d1 = CucumberExpression source m
                    /\ expression d2 = CucumberExpression source m)
    as (m & He1 & He2).
  { revert H1 H2. unfold defineStep, new_CucumberExpression.
    destruct (getDefinitionLineAndFile E stack1) as [ln1 f1].
    destruct (getDefinitionLineAndFile E stack2) as [ln2 f2].
    rewrite Hreg1.
    destruct (compile_CucumberExpression E source (parameterTypeRegistry r))
      as [e|m]; cbn; [discriminate|].
    intros Ha Hb. injection Ha as <-. injection Hb as <-. exists m.
    rewrite Hs1 in Hs2. cbn in Hs2.
    apply app_inj_tail in Hs2 as [Hl <-].
    apply app_inj_tail in Hl as [_ <-]. split; reflexivity. }
  assert (stepDefinitions r2 = (stepDefinitions r ++ d1 :: [] ++ d2 :: [])%list)
    as Hsteps by (rewrite Hs2, Hs1, <- app_assoc; reflexivity).
  exists d1, d2, m. repeat split; try assumption.
  intros r' text captures Hev Hm.
  destruct (evolves_keeps_templated r2 r' _ _ _ d1 d2 source source m m
              Hev Hsteps He1 He2) as (a1 & a2 & a3 & Ha).
  exists (filter (matches E text) (stepDefinitions r')).
  exact (two_matches_are_ambiguous text r' a1 a2 a3 d1 d2 Ha
           (matches_templated text d1 source m captures He1 Hm)
           (matches_templated text d2 source m captures He2 Hm)).
Qed.

Lemma filter_permutation {A} (f : A -> bool) (l l' : list A) :
  Permutation l l' -> Permutation (filter f l) (filter f l').
Proof.
  induction 1 as [|x l l' _ IH|x y l|l l' l'' _ IH1 _ IH2]; cbn.
  - constructor.
  - destruct (f x); [now constructor | exact IH].
  - destruct (f x), (f y); try reflexivity. constructor.
  - now transitivity (filter f l').
Qed.

(** X6: the order of registration never decides which definition runs.
    Two registries that hold the same definitions in different orders
    resolve every line to the same definition, find the same lines
    undefined and the same lines ambiguous. *)
Theorem resolution_ignores_registration_order (text : string)
    (r1 r2 : Registry E) :
  Permutation (stepDefinitions r1) (stepDefinitions r2) ->
  (forall d, resolveStepDefintion E text r1 = inr d
             <-> resolveStepDefintion E text r2 = inr d)
  /\ (resolveStepDefintion E text r1 = inl (UndefinedStepError text)
      <-> resolveStepDefintion E text r2 = inl (UndefinedStepError text))
  /\ ((exists c : list (IStepDefinition E), resolveStepDefintion E text r1 = inl (AmbiguousStepError text c))
      <-> (exists c : list (IStepDefinition E), resolveStepDefintion E text r2
                     = inl (AmbiguousStepError text c))).
Proof.
  intros Hperm.
  assert (forall ra rb : Registry E,
            Permutation (stepDefinitions ra) (stepDefinitions rb) ->
            (forall d, resolveStepDefintion E text ra = inr d ->
                       resolveStepDefintion E text rb = inr d)
            /\ (resolveStepDefintion E text ra = inl (UndefinedStepError text) ->
                resolveStepDefintion E text rb = inl (UndefinedStepError text))
            /\ ((exists c : list (IStepDefinition E), resolveStepDefintion E text ra
                           = inl (AmbiguousStepError text c)) ->
                exists c : list (IStepDefinition E), resolveStepDefintion E text rb
                          = inl (AmbiguousStepError text c))) as Hdir.
  { intros ra rb Hp.
    pose proof (filter_permutation (matches E text) _ _ Hp) as Hf.
    repeat apply conj.
    - intros d Hres.
      destruct (resolved_is_unique E text ra d Hres) as (d0 & Hone & ->).
      apply (resolve_unique E). rewrite Hone in Hf.
      now apply Permutation_length_1_inv in Hf.
    - intros Hres. rewrite (undefined_has_no_match text ra Hres) in Hf.
      apply Permutation_nil in Hf. unfold resolveStepDefintion. now rewrite Hf.
    - intros [c Hres]. apply ambiguous_has_matches in Hres.
      rewrite (Permutation_length Hf) in Hres.
      eexists. now apply (resolve_ambiguous E). }
  destruct (Hdir r1 r2 Hperm) as (Ha & Hb & Hc).
  destruct (Hdir r2 r1 (Permutation_sym Hperm)) as (Ha' & Hb' & Hc').
  repeat split; auto.
Qed.

(** ** Running a step *)

Lemma mapM_first_failure {A B} (f : A -> result B) (pre post : list A)
    (x : A) (ys : list B) (e : exn) :
  Forall2 (fun a b => f a = inr b) pre ys ->
  f x = inl e ->
  mapM f (pre ++ x :: post)%list = inl e.
Proof.
  intros Hpre Hx. induction Hpre as [|a b pre ys Ha _ IH]; cbn.
  - now rewrite Hx.
  - rewrite Ha. cbn. now rewrite IH.
Qed.

(** X7: the ways a run of a step ends.  It fails with the error of the
    resolution; or with the engine's error for the read of [map] on
    [null], when the second [match] of the definition returned, made in
    the state the first left, yields [null]; or with the exception of a
    transform; in these three cases without any call into user code.  Or
    it makes exactly one call, to the implementation of the definition
    returned with the context as receiver, and ends as that call ends.
    For a templated definition the second [match] always yields
    captures. *)
Theorem run_step_outcomes (world : value) (text : string) (argument : value)
    (r : Registry E) :
  ((exists e,
      resolveStepDefintion E text r = inl e
      /\ runStepDefininition E world text argument r = ([], inl e))
   \/ (exists d,
         resolveStepDefintion E text r = inr d
         /\ expression_match E (expression d) text = None
         /\ runStepDefininition E world text argument r
            = ([], inl (TypeError
                          "Cannot read properties of null (reading 'map')")))
   \/ (exists d captures e,
         resolveStepDefintion E text r = inr d
         /\ expression_match E (expression d) text = Some captures
         /\ mapM (fun c => getValue E c world) captures = inl e
         /\ runStepDefininition E world text argument r = ([], inl e))
   \/ (exists d captures values,
         resolveStepDefintion E text r = inr d
         /\ expression_match E (expression d) text = Some captures
         /\ mapM (fun c => getValue E c world) captures = inr values
         /\ runStepDefininition E world text argument r
            = ([mkCall (implementation d) world
                  (values ++ if truthy argument then [argument] else [])%list],
               match call_outcome E (implementation d) world
                       (values ++ if truthy argument then [argument] else [])%list
               with
               | Some e => inl e
               | None => inr tt
               end)))
  /\ (forall d source m,
        resolveStepDefintion E text r = inr d ->
        expression d = CucumberExpression source m ->
        exists captures, expression_match E (expression d) text = Some captures).
Proof.
  split.
  - destruct (resolveStepDefintion E text r) as [e|d] eqn:Hres.
    + left. exists e. split; [reflexivity|]. now apply run_fails_before_call.
    + right.
      destruct (expression_match E (expression d) text) as [captures|] eqn:Hmatch.
      * right.
        destruct (mapM (fun c => getValue E c world) captures)
          as [e|values] eqn:Hvals.
        -- left. exists d, captures, e. repeat split; try assumption.
           unfold runStepDefininition. rewrite Hres. cbn. rewrite Hmatch. cbn.
           now rewrite Hvals.
        -- right. exists d, captures, values. repeat split; try assumption.
           now rewrite (run_resolved E world text argument r d captures values
                          Hres Hmatch Hvals).
      * left. exists d. repeat split; try assumption.
        unfold runStepDefininition. rewrite Hres. cbn. now rewrite Hmatch.
  - intros d source m. apply resolved_templated_matches.
Qed.

(** X8: when a transform throws, the run fails with the exception of the
    leftmost capture whose transform throws, and the implementation is not
    called. *)
Theorem failing_transform_stops_run (world : value) (text : string)
    (argument : value) (r : Registry E) (d : IStepDefinition E)
    (pre post : list (Argument E)) (c : Argument E) (values : list value)
    (e : exn) :
  resolveStepDefintion E text r = inr d ->
  expression_match E (expression d) text = Some (pre ++ c :: post)%list ->
  Forall2 (fun a v => getValue E a world = inr v) pre values ->
  getValue E c world = inl e ->
  runStepDefininition E world text argument r = ([], inl e).
Proof.
  intros Hres Hmatch Hpre Hc. unfold runStepDefininition.
  rewrite Hres. cbn. rewrite Hmatch. cbn.
  now rewrite (mapM_first_failure _ pre post c values e Hpre Hc).
Qed.

(** X9: a data table and a doc string that is not empty are passed to the
    implementation as its last argument. *)
Theorem table_or_text_is_last_argument (world : value) (text : string)
    (argument : value) (r : Registry E) (d : IStepDefinition E)
    (captures : list (Argument E)) (values : list value) :
  (exists rows, argument = VDataTable rows)
  \/ (exists s, argument = VString s /\ s <> "") ->
  resolveStepDefintion E text r = inr d ->
  expression_match E (expression d) text = Some captures ->
  mapM (fun c => getValue E c world) captures = inr values ->
  fst (runStepDefininition E world text argument r)
  = [mkCall (implementation d) world (values ++ [argument])%list].
Proof.
  intros Harg Hres Hmatch Hvals.
  apply (trailing_argument_last E world text argument r d captures values
           Hres Hmatch Hvals).
  destruct Harg as [[rows ->] | (s & -> & Hne)]; cbn; [reflexivity|].
  apply String.eqb_neq in Hne. now rewrite Hne.
Qed.

(** ** Running hooks *)

Lemma run_bind_assoc {A B C} (m : run A) (k : A -> run B) (k' : B -> run C) :
  run_bind (run_bind m k) k' = run_bind m (fun a => run_bind (k a) k').
Proof.
  destruct m as [calls [e|a]]; cbn; [reflexivity|].
  destruct (k a) as [calls1 [e|b]]; cbn; [reflexivity|].
  destruct (k' b) as [calls2 out]. now rewrite app_assoc.
Qed.

Lemma forEach_app {A} (xs ys : list A) (callback : A -> run unit) :
  forEach (xs ++ ys)%list callback
  = run_bind (forEach xs callback) (fun _ => forEach ys callback).
Proof.
  induction xs as [|x xs IH]; cbn [app forEach].
  - cbn. now destruct (forEach ys callback).
  - rewrite IH. symmetry. apply run_bind_assoc.
Qed.

(** What a run of a table does once one more hook is appended to it. *)
Lemma forEach_selected_snoc (world : value) (tags : list string)
    (table : list (IHook E)) (h : IHook E) :
  forEach (selected tags (table ++ [h])%list)
          (fun hook => invoke E (hook_implementation hook) world [])
  = match forEach (selected tags table)
            (fun hook => invoke E (hook_implementation hook) world []) with
    | (calls, inl e) => (calls, inl e)
    | (calls, inr _) =>
        if node_evaluate E (node h) tags
        then ((calls ++ [hook_call world h])%list,
              match call_outcome E (hook_implementation h) world [] with
              | Some e => inl e
              | None => inr tt
              end)
        else (calls, inr tt)
    end.
Proof.
  rewrite selected_app, forEach_app. unfold selected at 2. cbn [filter].
  destruct (forEach (selected tags table)
              (fun hook => invoke E (hook_implementation hook) world []))
    as [calls [e|[]]]; cbn; [reflexivity|].
  destruct (node_evaluate E (node h) tags); cbn.
  - destruct (call_outcome E (hook_implementation h) world []); reflexivity.
  - now rewrite app_nil_r.
Qed.

(** X10: a hook that throws ends the run of its table.  The selected hooks
    before it have been called, the hooks after it are not, and its
    exception is the outcome of the run. *)
Theorem throwing_hook_ends_run (world : value) (tags : list string)
    (r : Registry E) (pre post : list (IHook E)) (h : IHook E) (e : exn) :
  Forall (hook_returns world) pre ->
  call_outcome E (hook_implementation h) world [] = Some e ->
  (selected tags (beforeHooks r) = (pre ++ h :: post)%list ->
     runBeforeHooks E world tags r
     = ((map (hook_call world) pre ++ [hook_call world h])%list, inl e))
  /\ (selected tags (afterHooks r) = (pre ++ h :: post)%list ->
        runAfterHooks E world tags r
        = ((map (hook_call world) pre ++ [hook_call world h])%list, inl e)).
Proof.
  intros Hpre Hh. split; intros Hsel.
  - unfold runBeforeHooks. fold (selected tags (beforeHooks r)). rewrite Hsel.
    rewrite (forEach_invoke_stops E world pre post h e Hpre Hh), map_app.
    reflexivity.
  - unfold runAfterHooks. fold (selected tags (afterHooks r)). rewrite Hsel.
    rewrite (forEach_invoke_stops E world pre post h e Hpre Hh), map_app.
    reflexivity.
Qed.

(** X11: a hook registered later runs later.  After one more registration
    a run of the table is the run of the table as it was, followed, when
    that run returned and the tag set selects the new hook, by the call of
    the new hook. *)
Theorem new_hook_runs_last (optionsOrFn maybeFn : value) (r : Registry E) :
  (forall r', defineBefore E optionsOrFn maybeFn r = inr r' ->
     exists h,
       beforeHooks r' = (beforeHooks r ++ [h])%list
       /\ forall world tags,
            runBeforeHooks E world tags r'
            = match runBeforeHooks E world tags r with
              | (calls, inl e) => (calls, inl e)
              | (calls, inr _) =>
                  if node_evaluate E (node h) tags
                  then ((calls ++ [hook_call world h])%list,
                        match call_outcome E (hook_implementation h) world [] with
                        | Some e => inl e
                        | None => inr tt
                        end)
                  else (calls, inr tt)
              end)
  /\ (forall r', defineAfter E optionsOrFn maybeFn r = inr r' ->
        exists h,
          afterHooks r' = (afterHooks r ++ [h])%list
          /\ forall world tags,
               runAfterHooks E world tags r'
               = match runAfterHooks E world tags r with
                 | (calls, inl e) => (calls, inl e)
                 | (calls, inr _) =>
                     if node_evaluate E (node h) tags
                     then ((calls ++ [hook_call world h])%list,
                           match call_outcome E (hook_implementation h) world []
                           with
                           | Some e => inl e
                           | None => inr tt
                           end)
                     else (calls, inr tt)
                 end).
Proof.
  split; intros r' Hdef.
  - unfold defineBefore in Hdef.
    destruct (parseHookArguments E optionsOrFn maybeFn) as [e|h];
      [discriminate Hdef|].
    cbn in Hdef. injection Hdef as <-. exists h. split; [reflexivity|].
    intros world tags. unfold runBeforeHooks. cbn [beforeHooks push_beforeHook].
    apply forEach_selected_snoc.
  - unfold defineAfter in Hdef.
    destruct (parseHookArguments E optionsOrFn maybeFn) as [e|h];
      [discriminate Hdef|].
    cbn in Hdef. injection Hdef as <-. exists h. split; [reflexivity|].
    intros world tags. unfold runAfterHooks. cbn [afterHooks push_afterHook].
    apply forEach_selected_snoc.
Qed.

(** ** The tables do not depend on each other *)

(** X12: the registration of a hook changes neither the resolution nor the
    run of any step, nor the run of the other hook table; the registration
    of a step changes the run of neither hook table. *)
Theorem tables_are_independent (r : Registry E) :
  (forall optionsOrFn maybeFn r',
     defineBefore E optionsOrFn maybeFn r = inr r' ->
     (forall text, resolveStepDefintion E text r' = resolveStepDefintion E text r)
     /\ (forall world text argument,
           runStepDefininition E world text argument r'
           = runStepDefininition E world text argument r)
     /\ (forall world tags,
           runAfterHooks E world tags r' = runAfterHooks E world tags r))
  /\ (forall optionsOrFn maybeFn r',
        defineAfter E optionsOrFn maybeFn r = inr r' ->
        (forall text, resolveStepDefintion E text r' = resolveStepDefintion E text r)
        /\ (forall world text argument,
              runStepDefininition E world text argument r'
              = runStepDefininition E world text argument r)
        /\ (forall world tags,
              runBeforeHooks E world tags r' = runBeforeHooks E world tags r))
  /\ (forall unparsedStack description impl r',
        defineStep E unparsedStack description impl r = inr r' ->
        forall world tags,
          runBeforeHooks E world tags r' = runBeforeHooks E world tags r
          /\ runAfterHooks E world tags r' = runAfterHooks E world tags r).
Proof.
  repeat apply conj.
  - intros optionsOrFn maybeFn r' Hdef. unfold defineBefore in Hdef.
    destruct (parseHookArguments E optionsOrFn maybeFn) as [e|h];
      [discriminate Hdef|].
    cbn in Hdef. injection Hdef as <-. repeat split.
  - intros optionsOrFn maybeFn r' Hdef. unfold defineAfter in Hdef.
    destruct (parseHookArguments E optionsOrFn maybeFn) as [e|h];
      [discriminate Hdef|].
    cbn in Hdef. injection Hdef as <-. repeat split.
  - intros unparsedStack description impl r' Hdef world tags.
    destruct (defineStep_appends_one E _ _ _ _ _ Hdef)
      as (d & _ & _ & _ & _ & Hbefore & Hafter).
    unfold runBeforeHooks, runAfterHooks. now rewrite Hbefore, Hafter.
Qed.

(** ** Failures of a registration *)

(** X13: a hook registration fails in three ways only: with the registry's
    error, whose message speaks of a Before hook also when an After hook
    is registered; with the engine's error for the read of [tags] when the
    options are [null]; or with the exception of the tag parser. *)
Theorem hook_registration_failures (optionsOrFn maybeFn : value)
    (r : Registry E) (e : exn) :
  defineBefore E optionsOrFn maybeFn r = inl e
  \/ defineAfter E optionsOrFn maybeFn r = inl e ->
  e = Error "Unexpected argument for Before hook"
  \/ (optionsOrFn = VNull
      /\ (exists g, maybeFn = VFunction g)
      /\ e = TypeError "Cannot read properties of null (reading 'tags')")
  \/ (exists g tags,
        maybeFn = VFunction g
        /\ get_prop optionsOrFn "tags" = inr tags
        /\ truthy tags = true
        /\ parse E tags = inl e).
Proof.
  intros Hfail.
  assert (parseHookArguments E optionsOrFn maybeFn = inl e) as Hparse.
  { destruct Hfail as [Hfail | Hfail];
      unfold defineBefore, defineAfter in Hfail;
      destruct (parseHookArguments E optionsOrFn maybeFn) as [e'|h];
      cbv [bind ret] in Hfail; congruence. }
  clear Hfail.
  destruct optionsOrFn; cbn in Hparse;
    try (left; unfold throw in Hparse; congruence).
  - destruct maybeFn; cbn in Hparse;
      try (left; unfold throw in Hparse; congruence).
    right. left. repeat split; [now exists f | congruence].
  - destruct (truthy maybeFn); cbn in Hparse; [|discriminate Hparse].
    left. unfold throw in Hparse. congruence.
  - destruct maybeFn; cbn in Hparse;
      try (left; unfold throw in Hparse; congruence).
    discriminate Hparse.
  - destruct maybeFn; cbn in Hparse;
      try (left; unfold throw in Hparse; congruence).
    destruct (truthy (assoc "tags" props)) eqn:Htruthy; cbn in Hparse;
      [|discriminate Hparse].
    destruct (parse E (assoc "tags" props)) as [e'|t] eqn:Htags; cbn in Hparse;
      [|discriminate Hparse].
    right. right. exists f, (assoc "tags" props).
    repeat split; [exact Htruthy | congruence].
  - destruct maybeFn; cbn in Hparse;
      try (left; unfold throw in Hparse; congruence).
    discriminate Hparse.
Qed.

(** X14: a step registration fails in two ways only: with the registry's
    error, for a pattern that is neither a string nor a regular
    expression, or with the exception of the expression compiler for the
    pattern given. *)
Theorem step_registration_failures (unparsedStack : option string)
    (description : value) (impl : Callable) (r : Registry E) (e : exn) :
  defineStep E unparsedStack description impl r = inl e ->
  (e = Error "Unexpected argument for step definition"
   /\ (forall s, description <> VString s)
   /\ (forall re, description <> VRegExp re))
  \/ (exists s, description = VString s
                /\ compile_CucumberExpression E s (parameterTypeRegistry r) = inl e)
  \/ (exists re, description = VRegExp re
                 /\ compile_RegularExpression E re (parameterTypeRegistry r) = inl e).
Proof.
  unfold defineStep.
  destruct (getDefinitionLineAndFile E unparsedStack) as [ln fl].
  destruct description; cbn;
    try (intros H; left; unfold throw in H;
         repeat split; [congruence | discriminate | discriminate]).
  - unfold new_CucumberExpression.
    destruct (compile_CucumberExpression E s (parameterTypeRegistry r))
      as [e'|m] eqn:Hc; cbn; [|discriminate].
    intros H. right. left. exists s. split; [reflexivity | congruence].
  - unfold new_RegularExpression.
    destruct (compile_RegularExpression E r0 (parameterTypeRegistry r))
      as [e'|m] eqn:Hc; cbn; [|discriminate].
    intros H. right. right. exists r0. split; [reflexivity | congruence].
Qed.

(** ** One resolution *)

(** X16: within one resolution, and by what [match] returns for each
    definition at that call, exactly one match is required.  When no
    definition of the table matches the line the resolution fails with the
    error that names the line; when one definition alone matches, it is
    returned; when two definitions match, the resolution fails with the
    ambiguity error, whose collisions are the definitions of the table
    that match. *)
Theorem one_resolution_is_exactly_one_match (text : string) (r : Registry E) :
  ((forall d, In d (stepDefinitions r) ->
      expression_match E (expression d) text = None) ->
     resolveStepDefintion E text r
     = inl (Error ("Step implementation missing for: " ++ text)))
  /\ (forall pre d post captures,
        stepDefinitions r = (pre ++ d :: post)%list ->
        expression_match E (expression d) text = Some captures ->
        (forall o, In o (pre ++ post)%list ->
           expression_match E (expression o) text = None) ->
        resolveStepDefintion E text r = inr (after_match E text d)
        /\ implementation (after_match E text d) = implementation d)
  /\ (forall l1 d1 l2 d2 l3 c1 c2,
        stepDefinitions r = (l1 ++ d1 :: l2 ++ d2 :: l3)%list ->
        expression_match E (expression d1) text = Some c1 ->
        expression_match E (expression d2) text = Some c2 ->
        exists colliding,
          resolveStepDefintion E text r = inl (AmbiguousStepError text colliding)
          /\ In d1 colliding /\ In d2 colliding
          /\ forall d, In d colliding <->
                       In d (stepDefinitions r)
                       /\ expression_match E (expression d) text <> None).
Proof.
  assert (forall l : list (IStepDefinition E),
            (forall o, In o l -> expression_match E (expression o) text = None) ->
            filter (matches E text) l = []) as Hnone.
  { intros l Hl. induction l as [|o l IH]; [reflexivity|]. cbn.
    unfold matches at 1. rewrite (Hl o (or_introl eq_refl)). apply IH.
    intros o' Ho'. apply Hl. now right. }
  assert (forall d captures,
            expression_match E (expression d) text = Some captures ->
            matches E text d = true) as Hyes
    by (intros d captures Hd; unfold matches; now rewrite Hd).
  repeat apply conj.
  - intros Hall. unfold resolveStepDefintion. now rewrite (Hnone _ Hall).
  - intros pre d post captures Hsteps Hd Hothers. split; [|reflexivity].
    apply (resolve_unique E).
    rewrite Hsteps, filter_app. cbn. rewrite (Hyes d captures Hd).
    rewrite (Hnone pre), (Hnone post); [reflexivity | |];
      intros o Ho; apply Hothers; apply in_or_app; [now right | now left].
  - intros l1 d1 l2 d2 l3 c1 c2 Hsteps H1 H2.
    exists (filter (matches E text) (stepDefinitions r)).
    destruct (two_matches_are_ambiguous text r l1 l2 l3 d1 d2 Hsteps
                (Hyes d1 c1 H1) (Hyes d2 c2 H2)) as (Hres & Hin1 & Hin2).
    repeat split; try assumption.
    + now apply filter_In in H.
    + apply filter_In in H as [_ Hm]. unfold matches in Hm.
      intros Hn. now rewrite Hn in Hm.
    + intros [Hin Hm]. apply filter_In. split; [exact Hin|].
      unfold matches. destruct (expression_match E (expression d) text);
        [reflexivity | now destruct Hm].
Qed.


End Further.

Section Invariant.

Variable E : External.

Lemma location_passes_test (unparsedStack : option string)
    (d : IStepDefinition E) :
  (line d, file d) = getDefinitionLineAndFile E unparsedStack ->
  passes_filename_test d.
Proof.
  intros Hloc. unfold passes_filename_test.
  rewrite location_by_find in Hloc.
  destruct (find is_user_frame (searched_frames E unparsedStack))
    as [frame|] eqn:Hfind.
  - right. apply find_some in Hfind as [_ Huser].
    apply is_user_frame_spec in Huser as (f & Hfile & Hne & Hinc).
    rewrite Hfile in Hloc. apply String.eqb_neq in Hne as Hneb.
    rewrite Hneb in Hloc. injection Hloc as _ ->. now split.
  - left. now injection Hloc.
Qed.

(** X15: in every state a registry goes through from the one the
    constructor leaves, by registrations, resolutions and runs, each step
    definition carries the file [unknown] at line 0, or a file name that
    is not empty and does not contain the package name. *)
Theorem locations_pass_filename_test (r : Registry E) :
  registered E r ->
  Forall passes_filename_test (stepDefinitions r).
Proof.
  unfold registered. induction 1 as [|ra rb _ IH Hop]; [constructor|].
  destruct (operation_on_steps E ra rb Hop)
    as [(d & Hd & stack & Hloc) | (g & Hg & Hkeep)].
  - rewrite Hd. apply Forall_app. split; [exact IH|].
    constructor; [|constructor]. exact (location_passes_test stack d Hloc).
  - rewrite Hg. apply Forall_map. revert IH. apply Forall_impl.
    intros d Hd. destruct (Hkeep d) as (Hfile & Hline & _).
    unfold passes_filename_test in *. now rewrite Hfile, Hline.
Qed.

End Invariant.

(** * The further properties on the small instance *)

(** [a new step] registered after the steps of [Sample.registry]: the line
    [a new step], undefined before, resolves to the new definition. *)
Lemma registration_then_resolution_witness :
  defineStep Sample.ext (Some "user frame") (VString "a new step") "fresh"
    Sample.registry = inr Scenarios.with_new_step
  /\ resolveStepDefintion Sample.ext "a new step" Sample.registry
     = inl (UndefinedStepError "a new step")
  /\ exists d,
       implementation d = "fresh"
       /\ resolveStepDefintion Sample.ext "a new step" Scenarios.with_new_step
          = inr (after_match Sample.ext "a new step" d).
Proof.
  split; [reflexivity|]. split; [reflexivity|].
  destruct (registration_then_resolution Sample.ext (Some "user frame")
              (VString "a new step") "fresh" Sample.registry
              Scenarios.with_new_step eq_refl)
    as (d & Hsteps & Himpl & Htext).
  exists d. split; [exact Himpl|].
  destruct (Htext "a new step") as (_ & Hnew & _).
  apply Hnew; [|reflexivity].
  cbv in Hsteps. injection Hsteps as <-. discriminate.
Defined.

(** The templated patterns [a step], registered twice: the line [a step]
    is ambiguous, and still is after a resolution, a run and one more
    registration. *)
Lemma templated_ambiguity_witness :
  exists colliding,
    resolveStepDefintion Sample.ext "a step"
      (Scenarios.or_else
         (defineStep Sample.ext None (VString "another step") "other"
            (after_runStepDefininition Sample.ext "a step"
               (after_resolveStepDefintion Sample.ext "a step" Scenarios.twice)))
         Scenarios.twice)
    = inl (AmbiguousStepError "a step" colliding)
    /\ In (mkStep "cypress/support/step_definitions/steps.js" 3%N
             (CucumberExpression "a step"
                (Sample.Literal "a step" : Matcher Sample.ext)) "first")
          colliding
    /\ In (mkStep "cypress/support/step_definitions/steps.js" 0%N
             (CucumberExpression "a step"
                (Sample.Literal "a step" : Matcher Sample.ext)) "second")
          colliding.
Proof.
  apply (templated_ambiguity_is_permanent Sample.ext Scenarios.twice _ "a step"
           [] [] [] _ _ "a step" "a step"
           (Sample.Literal "a step") (Sample.Literal "a step") [] []);
    try reflexivity.
  eapply evolves_then;
    [eapply evolves_then; [eapply evolves_then; [apply evolves_refl|]|]|].
  - apply (op_resolveStepDefintion Sample.ext Scenarios.twice "a step").
  - apply (op_runStepDefininition Sample.ext _ "a step").
  - apply (op_defineStep Sample.ext _ None (VString "another step") "other").
    reflexivity.
Defined.

(** [a step] registered twice in the empty registry. *)
Lemma duplicate_pattern_witness :
  exists d1 d2 m,
    stepDefinitions Scenarios.twice
    = (stepDefinitions (constructor Sample.ext) ++ [d1; d2])%list
    /\ expression d1 = CucumberExpression "a step" m
    /\ expression d2 = CucumberExpression "a step" m
    /\ implementation d1 = "first" /\ implementation d2 = "second"
    /\ forall r' text captures,
         evolves Sample.ext Scenarios.twice r' ->
         matcher_match Sample.ext m text = Some captures ->
         exists colliding,
           resolveStepDefintion Sample.ext text r'
           = inl (AmbiguousStepError text colliding)
           /\ In d1 colliding /\ In d2 colliding.
Proof.
  exact (duplicate_string_pattern_is_ambiguous Sample.ext (Some "user frame")
           (Some "user frame without line") "a step" "first" "second"
           (constructor Sample.ext) Scenarios.once Scenarios.twice
           eq_refl eq_refl).
Defined.

Example duplicate_pattern_example :
  resolveStepDefintion Sample.ext "a step" Scenarios.twice
  = inl (Error ("Multiple matching step definitions for: a step" ++ nl
                ++ " a step - cypress/support/step_definitions/steps.js:3" ++ nl
                ++ " a step - cypress/support/step_definitions/steps.js:0")).
Proof. reflexivity. Qed.

(** [Sample.registry] and the registry with its definitions reversed. *)
Lemma resolution_ignores_order_witness :
  Permutation (stepDefinitions Sample.registry)
              (stepDefinitions Scenarios.reordered)
  /\ (forall d, resolveStepDefintion Sample.ext "there are 5 items" Sample.registry
                = inr d
                <-> resolveStepDefintion Sample.ext "there are 5 items"
                      Scenarios.reordered = inr d).
Proof.
  assert (Permutation (stepDefinitions Sample.registry)
                      (stepDefinitions Scenarios.reordered)) as Hperm
    by apply Permutation_rev.
  split; [exact Hperm|].
  exact (proj1 (resolution_ignores_registration_order Sample.ext
                  "there are 5 items" Sample.registry Scenarios.reordered
                  Hperm)).
Defined.

(** With the transform that rejects 0, the line [there are 0 items] fails
    in the transform and the implementation is not called. *)
Lemma failing_transform_witness :
  runStepDefininition Scenarios.strict (VObject []) "there are 0 items"
    (VDataTable [["a"]]) Scenarios.strict_registry
  = ([], inl (Foreign "zero is not allowed")).
Proof.
  apply (failing_transform_stops_run Scenarios.strict (VObject [])
           "there are 0 items" (VDataTable [["a"]]) Scenarios.strict_registry
           (mkStep "cypress/support/step_definitions/steps.js" 3%N
              (CucumberExpression "there are {int} items"
                 (Sample.IntSlot "there are " " items" : Matcher Scenarios.strict))
              "count")
           [] [] (("int", "0") : Argument Scenarios.strict) []
           (Foreign "zero is not allowed")).
  - reflexivity.
  - reflexivity.
  - constructor.
  - reflexivity.
Defined.

(** The step [a doc string step] with a doc string that is not empty. *)
Lemma table_or_text_witness :
  fst (runStepDefininition Sample.ext (VObject []) "a doc string step"
         (VString "a foo doc string") Sample.registry)
  = [mkCall "doc" (VObject []) [VString "a foo doc string"]].
Proof.
  apply (table_or_text_is_last_argument Sample.ext (VObject [])
           "a doc string step" (VString "a foo doc string") Sample.registry
           (mkStep "unknown" 0%N
              (CucumberExpression "a doc string step"
                 (Sample.Literal "a doc string step" : Matcher Sample.ext))
              "doc")
           [] []).
  - right. exists "a foo doc string". split; [reflexivity | discriminate].
  - reflexivity.
  - reflexivity.
  - reflexivity.
Defined.

(** The hooks [h1], [boom], [h2]: the run calls [h1] and [boom] and ends
    with the exception of [boom]. *)
Lemma throwing_hook_witness :
  runBeforeHooks Sample.ext (VObject []) [] Scenarios.with_throwing_hook
  = ([mkCall "h1" (VObject []) []; mkCall "boom" (VObject []) []],
     inl (Foreign "boom")).
Proof.
  apply (proj1 (throwing_hook_ends_run Sample.ext (VObject []) []
                  Scenarios.with_throwing_hook
                  [mkHook noopNode "h1"] [mkHook noopNode "h2"]
                  (mkHook noopNode "boom") (Foreign "boom")
                  ltac:(repeat constructor) eq_refl)).
  reflexivity.
Defined.

(** [Sample.registry] with one more before hook tagged [@x]: under the tag
    set [@x] it is called after the hooks that were there. *)
Lemma new_hook_runs_last_witness :
  runBeforeHooks Sample.ext (VObject []) ["@x"] Scenarios.with_new_hook
  = ([mkCall "h1" (VObject []) []; mkCall "h2" (VObject []) [];
      mkCall "h4" (VObject []) []; mkCall "h5" (VObject []) []], inr tt).
Proof.
  destruct (proj1 (new_hook_runs_last Sample.ext
                     (VObject [("tags", VString "@x")]) (VFunction "h5")
                     Sample.registry)
              Scenarios.with_new_hook eq_refl)
    as (h & Hhooks & Hrun).
  rewrite Hrun. cbv in Hhooks. injection Hhooks as <-. reflexivity.
Defined.

(** An After hook registered with a number in the place of the options
    fails with the message that speaks of a Before hook. *)
Lemma hook_registration_failures_witness :
  defineAfter Sample.ext (VNumber 3) (VFunction "g") (constructor Sample.ext)
  = inl (Error "Unexpected argument for Before hook")
  /\ (Error "Unexpected argument for Before hook"
      = Error "Unexpected argument for Before hook"
      \/ (VNumber 3 = VNull
          /\ (exists g, VFunction "g" = VFunction g)
          /\ Error "Unexpected argument for Before hook"
             = TypeError "Cannot read properties of null (reading 'tags')")
      \/ (exists g tags,
            VFunction "g" = VFunction g
            /\ get_prop (VNumber 3) "tags" = inr tags
            /\ truthy tags = true
            /\ parse Sample.ext tags
               = inl (Error "Unexpected argument for Before hook"))).
Proof.
  split; [reflexivity|].
  exact (hook_registration_failures Sample.ext (VNumber 3) (VFunction "g")
           (constructor Sample.ext)
           (Error "Unexpected argument for Before hook")
           (or_intror eq_refl)).
Defined.

(** A number in the place of the pattern. *)
Lemma step_registration_failures_witness :
  defineStep Sample.ext None (VNumber 42) "impl" (constructor Sample.ext)
  = inl (Error "Unexpected argument for step definition")
  /\ ((Error "Unexpected argument for step definition"
       = Error "Unexpected argument for step definition"
       /\ (forall s, VNumber 42 <> VString s)
       /\ (forall re, VNumber 42 <> VRegExp re))
      \/ (exists s, VNumber 42 = VString s
                    /\ compile_CucumberExpression Sample.ext s
                         (parameterTypeRegistry (constructor Sample.ext))
                       = inl (Error "Unexpected argument for step definition"))
      \/ (exists re, VNumber 42 = VRegExp re
                     /\ compile_RegularExpression Sample.ext re
                          (parameterTypeRegistry (constructor Sample.ext))
                        = inl (Error "Unexpected argument for step definition"))).
Proof.
  split; [reflexivity|].
  exact (step_registration_failures Sample.ext None (VNumber 42) "impl"
           (constructor Sample.ext)
           (Error "Unexpected argument for step definition") eq_refl).
Defined.

(** The registry of a templated pattern and a regular expression, after a
    resolution and a run. *)
Lemma locations_pass_filename_test_witness :
  Forall passes_filename_test
    (stepDefinitions
       (after_runStepDefininition Sample.ext "a step"
          (after_resolveStepDefintion Sample.ext "a step" Scenarios.collision))).
Proof.
  apply (locations_pass_filename_test Sample.ext).
  eapply evolves_then; [eapply evolves_then|].
  - eapply evolves_then; [eapply evolves_then; [apply evolves_refl|]|].
    + apply (op_defineStep Sample.ext _ (Some "user frame") (VString "a step")
               "first"). reflexivity.
    + apply (op_defineStep Sample.ext _ (Some "user frame")
               (VRegExp (mkRegExp "a st" "g")) "second"). reflexivity.
  - apply (op_resolveStepDefintion Sample.ext Scenarios.collision "a step").
  - apply (op_runStepDefininition Sample.ext _ "a step").
Defined.

(** The line [there are 5 items] in [Sample.registry]: one definition
    alone matches it. *)
Lemma one_resolution_witness :
  resolveStepDefintion Sample.ext "there are 5 items" Sample.registry
  = inr (mkStep "cypress/support/step_definitions/steps.js" 3%N
           (CucumberExpression "there are {int} items"
              (Sample.IntSlot "there are " " items" : Matcher Sample.ext))
           "count").
Proof.
  refine (proj1 (proj1 (proj2 (one_resolution_is_exactly_one_match Sample.ext
                                 "there are 5 items" Sample.registry))
                   [] _ (tl (stepDefinitions Sample.registry))
                   [("int", "5")] eq_refl eq_refl _)).
  intros o Ho. cbn in Ho.
  destruct Ho as [<- | [<- | [<- | []]]]; reflexivity.
Defined.

(** The package name is looked for with the separator [/]: the path of the
    registry's own file, written with the other separator, is not taken
    for a file of the preprocessor. *)
Example other_separator_example :
  isFileNameInpreprocessor
    "C:\project\node_modules\@badeball\cypress-cucumber-preprocessor\lib\registry.js"
  = false.
Proof. reflexivity. Qed.


(** The stack [user frame]: the frame of the preprocessor is passed over
    and the location is that of the frame after it. *)
Example first_candidate_example :
  getDefinitionLineAndFile Sample.ext (Some "user frame")
  = (3%N, "cypress/support/step_definitions/steps.js").
Proof. reflexivity. Qed.

(** The templated definition that the line [there are 5 items] resolves to
    matches it again, with the capture of the number. *)
Lemma run_step_outcomes_witness :
  exists captures,
    expression_match Sample.ext
      (CucumberExpression "there are {int} items"
         (Sample.IntSlot "there are " " items" : Matcher Sample.ext))
      "there are 5 items"
    = Some captures.
Proof.
  exact (proj2 (run_step_outcomes Sample.ext VNull "there are 5 items"
                  VUndefined Sample.registry)
           (mkStep "cypress/support/step_definitions/steps.js" 3%N
              (CucumberExpression "there are {int} items"
                 (Sample.IntSlot "there are " " items" : Matcher Sample.ext))
              "count")
           "there are {int} items" (Sample.IntSlot "there are " " items")
           eq_refl eq_refl).
Defined.
